(** * The DT protocol: a UDP date/time server and client.

    A shallow embedding of [server.py] and [client.py].  Byte strings are
    lists of integers, Python [str] values are lists of Unicode code points,
    and the functions that print, send or exit run in a small monad over the
    trace of observable events with Python's exceptions as the error type. *)

From Stdlib Require Import ZArith Lia String Ascii.
From stdpp Require Import base list gmap.

Local Open Scope Z_scope.

(** ** Values of the Python runtime *)

(** [bytes] / [bytearray]: every element of a well-formed one is in
    [range(256)]. *)
Definition bytes := list Z.

(** [str]: the sequence of its code points. *)
Definition pystr := list Z.

Definition is_byte (b : Z) : bool := (0 <=? b) && (b <? 256).
Definition bytes_ok (bs : bytes) : Prop := Forall (fun b => 0 <= b < 256) bs.

Inductive exn : Type :=
  | IndexError
  | KeyError
  | ValueError
  | OverflowError
  | UnicodeDecodeError
  | UnicodeEncodeError
  | SocketTimeout
  | OSError
  | SystemExit (code : Z).

Inductive result (A : Type) : Type :=
  | Ok (a : A)
  | Raise (e : exn).
Arguments Ok {A} a.
Arguments Raise {A} e.

Definition rbind {A B} (r : result A) (k : A -> result B) : result B :=
  match r with
  | Ok a => k a
  | Raise e => Raise e
  end.

Declare Scope py_scope.
Delimit Scope py_scope with py.
Notation "x <~ r ;; k" := (rbind r (fun x => k))
  (at level 100, r at next level, right associativity) : py_scope.
Local Open Scope py_scope.

Definition len {A} (l : list A) : Z := Z.of_nat (length l).

(** *** Indexing and slicing *)

(** [l[i]] for a list, bytes or bytearray: negative indices count from the
    end, anything outside raises IndexError. *)
Definition py_getitem {A} (l : list A) (i : Z) : result A :=
  let j := if i <? 0 then i + len l else i in
  if j <? 0 then Raise IndexError
  else match l !! Z.to_nat j with
       | Some x => Ok x
       | None => Raise IndexError
       end.

(** Bound of a slice, clipped the way [slice.indices] does (step 1). *)
Definition clip (n i : Z) : Z :=
  if i <? 0 then Z.max 0 (n + i) else Z.min i n.

(** [l[i:j]]: never raises. *)
Definition py_slice {A} (l : list A) (i j : Z) : list A :=
  let a := clip (len l) i in
  let b := clip (len l) j in
  take (Z.to_nat (b - a)) (drop (Z.to_nat a) l).

(** [arr[i:j] = v] on a bytearray: the slice is replaced, the array may
    change its size. *)
Definition set_slice (arr : bytes) (i j : Z) (v : bytes) : bytes :=
  let a := clip (len arr) i in
  let b := Z.max a (clip (len arr) j) in
  take (Z.to_nat a) arr ++ v ++ drop (Z.to_nat b) arr.

(** [arr[i:] = v]. *)
Definition set_slice_from (arr : bytes) (i : Z) (v : bytes) : bytes :=
  set_slice arr i (len arr) v.

(** [arr[i] = x] on a bytearray: ValueError unless [x] is in [range(256)],
    which is checked first, IndexError outside the array. *)
Definition set_item (arr : bytes) (i x : Z) : result bytes :=
  if negb (is_byte x) then Raise ValueError
  else
    let j := if i <? 0 then i + len arr else i in
    if (j <? 0) || (len arr <=? j) then Raise IndexError
    else Ok (<[Z.to_nat j := x]> arr).

(** [bytearray(n)]: [n] zero bytes. *)
Definition bytearray (n : Z) : result bytes :=
  if n <? 0 then Raise ValueError else Ok (replicate (Z.to_nat n) 0).

(** *** Integers and bytes *)

(** [int.from_bytes(bs, "big")]. *)
Definition int_from_bytes (bs : bytes) : Z :=
  fold_left (fun acc b => acc * 256 + b) bs 0.

(** [n.to_bytes(2, "big")]: OverflowError when [n] is negative or needs
    more than two bytes. *)
Definition to_bytes2 (n : Z) : result bytes :=
  if (n <? 0) || (65536 <=? n) then Raise OverflowError
  else Ok [n / 256; n mod 256].

(** *** UTF-8 *)

(** A code point that UTF-8 can carry: a Unicode scalar value. *)
Definition is_scalar (c : Z) : bool :=
  (0 <=? c) && (c <=? 0x10FFFF) && negb ((0xD800 <=? c) && (c <=? 0xDFFF)).

Definition utf8_encode_cp (c : Z) : bytes :=
  if c <? 0x80 then [c]
  else if c <? 0x800 then [0xC0 + c / 64; 0x80 + c mod 64]
  else if c <? 0x10000 then
    [0xE0 + c / 4096; 0x80 + (c / 64) mod 64; 0x80 + c mod 64]
  else
    [0xF0 + c / 262144; 0x80 + (c / 4096) mod 64;
     0x80 + (c / 64) mod 64; 0x80 + c mod 64].

Definition utf8_bytes (s : pystr) : bytes := concat (map utf8_encode_cp s).

(** [s.encode("utf-8")]: a lone surrogate raises UnicodeEncodeError. *)
Definition str_encode (s : pystr) : result bytes :=
  if forallb is_scalar s then Ok (utf8_bytes s) else Raise UnicodeEncodeError.

Definition is_cont (b : Z) : bool := (0x80 <=? b) && (b <? 0xC0).

(** The strict decoder: continuation bytes must follow the lead byte,
    and overlong forms, surrogates and values above U+10FFFF are refused. *)
Fixpoint utf8_decode (bs : bytes) : option pystr :=
  match bs with
  | [] => Some []
  | b0 :: r1 =>
    if (0 <=? b0) && (b0 <? 0x80) then cons b0 <$> utf8_decode r1
    else if (0xC0 <=? b0) && (b0 <? 0xE0) then
      match r1 with
      | b1 :: r2 =>
        let c := (b0 - 0xC0) * 64 + (b1 - 0x80) in
        if is_cont b1 && (0x80 <=? c) then cons c <$> utf8_decode r2
        else None
      | _ => None
      end
    else if (0xE0 <=? b0) && (b0 <? 0xF0) then
      match r1 with
      | b1 :: b2 :: r3 =>
        let c := (b0 - 0xE0) * 4096 + (b1 - 0x80) * 64 + (b2 - 0x80) in
        if is_cont b1 && is_cont b2 && (0x800 <=? c) && is_scalar c
        then cons c <$> utf8_decode r3
        else None
      | _ => None
      end
    else if (0xF0 <=? b0) && (b0 <? 0xF8) then
      match r1 with
      | b1 :: b2 :: b3 :: r4 =>
        let c := (b0 - 0xF0) * 262144 + (b1 - 0x80) * 4096
                 + (b2 - 0x80) * 64 + (b3 - 0x80) in
        if is_cont b1 && is_cont b2 && is_cont b3
           && (0x10000 <=? c) && is_scalar c
        then cons c <$> utf8_decode r4
        else None
      | _ => None
      end
    else None
  end.

(** [bs.decode("utf-8")]. *)
Definition bytes_decode (bs : bytes) : result pystr :=
  match utf8_decode bs with
  | Some s => Ok s
  | None => Raise UnicodeDecodeError
  end.

(** A string literal of the source: the code points of its UTF-8 text. *)
Definition bytes_of_string (s : string) : bytes :=
  map (fun a => Z.of_N (N_of_ascii a)) (list_ascii_of_string s).

Definition py (s : string) : pystr :=
  default [] (utf8_decode (bytes_of_string s)).

(** *** Formatting integers *)

Fixpoint digits_fuel (fuel : nat) (n : Z) (acc : pystr) : pystr :=
  let acc' := (48 + n mod 10) :: acc in
  match fuel with
  | O => acc'
  | S f => if n <? 10 then acc' else digits_fuel f (n / 10) acc'
  end.

(** Decimal digits of a natural number; [Z.log2 n] divisions by ten are
    more than enough. *)
Definition digits (n : Z) : pystr := digits_fuel (Z.to_nat (Z.log2 n)) n [].

(** [str(n)], which is also [f"{n}"]. *)
Definition str_of_int (n : Z) : pystr :=
  if n <? 0 then 45 :: digits (- n) else digits n.

(** [f"{n:02}"]: zero padded to width two, the sign counting. *)
Definition fmt02 (n : Z) : pystr :=
  if n <? 0 then 45 :: digits (- n)
  else let d := digits n in if (length d <? 2)%nat then 48 :: d else d.

(** ** Effects: the trace of events and the exceptions *)

(** A socket object, told apart by identity. *)
Definition handle := nat.

(** [(host, port)]. *)
Definition address : Type := pystr * Z.

Inductive event : Type :=
  | Stdout (line : pystr)
  | NewSocket (sock : handle)
  | Bind (sock : handle) (port : Z)
  | SendTo (sock : handle) (data : bytes) (addr : address)
  | Close (sock : handle).

(** The events so far, the most recent one first. *)
Definition trace := list event.

Definition M (A : Type) : Type := trace -> result A * trace.

Definition ret {A} (a : A) : M A := fun w => (Ok a, w).

Definition bind {A B} (m : M A) (k : A -> M B) : M B :=
  fun w => match m w with
           | (Ok a, w') => k a w'
           | (Raise e, w') => (Raise e, w')
           end.

Definition raise {A} (e : exn) : M A := fun w => (Raise e, w).

Definition lift {A} (r : result A) : M A := fun w => (r, w).

Definition emit (e : event) : M unit := fun w => (Ok tt, e :: w).

(** [try: m except e: h e]. *)
Definition catch {A} (m : M A) (h : exn -> M A) : M A :=
  fun w => match m w with
           | (Ok a, w') => (Ok a, w')
           | (Raise e, w') => h e w'
           end.

Notation "x <- m ;; k" := (bind m (fun x => k))
  (at level 100, m at next level, right associativity) : py_scope.
Notation "m ;; k" := (bind m (fun _ => k))
  (at level 100, right associativity) : py_scope.

Definition print (line : pystr) : M unit := emit (Stdout line).
Definition close (sock : handle) : M unit := emit (Close sock).
Definition sys_exit {A} (code : Z) : M A := raise (SystemExit code).

(** [sock.sendto(data, addr)]; whether the system call succeeds is the
    environment's choice. *)
Definition sendto (ok : bool) (sock : handle) (data : bytes) (addr : address)
  : M unit :=
  if ok then emit (SendTo sock data addr) else raise OSError.

(** The datagrams a trace has sent. *)
Definition sent (w : trace) : list (handle * bytes * address) :=
  omap (fun e => match e with
                 | SendTo s d a => Some (s, d, a)
                 | _ => None
                 end) w.

(** The sockets a trace has created or bound. *)
Definition is_socket_event (e : event) : bool :=
  match e with
  | NewSocket _ | Bind _ _ => true
  | _ => false
  end.

Definition socket_events (w : trace) : list event :=
  List.filter is_socket_event w.

(** ** Dates *)

(** What the code reads of a [datetime.datetime]. *)
Record datetime : Type := mk_datetime {
  year : Z;
  month : Z;
  day : Z;
  hour : Z;
  minute : Z
}.

(** The ranges [datetime.datetime.now()] keeps its fields in. *)
Definition datetime_ok (dt : datetime) : Prop :=
  1 <= year dt <= 9999 /\ 1 <= month dt <= 12 /\ 1 <= day dt <= 31
  /\ 0 <= hour dt <= 23 /\ 0 <= minute dt <= 59.

(** The three language names, the keys of [MONTHS] and the values of
    [LANGUAGE_CODES]. *)
Inductive language : Type := English | Maori | German.

Definition language_name (l : language) : pystr :=
  match l with
  | English => py "English"
  | Maori => py "Māori"
  | German => py "German"
  end.

(** * server.py *)

Module Server.

Definition MAGIC_NO : Z := 0x36FB.
Definition DT_REQUEST : Z := 0x0001.
Definition DT_RESPONSE : Z := 0x0002.

Definition MONTHS (l : language) : list pystr :=
  match l with
  | English =>
    [py "January"; py "February"; py "March"; py "April"; py "May";
     py "June"; py "July"; py "August"; py "September"; py "October";
     py "November"; py "December"]
  | Maori =>
    [py "Kohi-tātea"; py "Hui-tanguru"; py "Poutū-te-rangi";
     py "Paenga-whāwhā"; py "Haratua"; py "Pipiri"; py "Hōngingoi";
     py "Here-turi-kōkā"; py "Mahuru"; py "Whiringa-ā-nuku";
     py "Whiringa-ā-rangi"; py "Hakihea"]
  | German =>
    [py "Januar"; py "Februar"; py "März"; py "April"; py "Mai"; py "Juni";
     py "Juli"; py "August"; py "September"; py "Oktober"; py "November";
     py "Dezember"]
  end.

(** The dictionary [LANGUAGE_CODES]; a missing key is a KeyError. *)
Definition LANGUAGE_CODES (code : Z) : result language :=
  if code =? 0x0001 then Ok English
  else if code =? 0x0002 then Ok Maori
  else if code =? 0x0003 then Ok German
  else Raise KeyError.

Definition validate_field (MagicNo PacketType RequestType : Z) : M bool :=
  if negb (MagicNo =? MAGIC_NO) then
    print (py "ERROR: Packet magic number is incorrect, dropping packet");;
    ret false
  else if negb (PacketType =? DT_REQUEST) then
    print (py "ERROR: Packet is not a DT_Request, dropping packet");;
    ret false
  else if negb ((RequestType =? 0x0001) || (RequestType =? 0x0002)) then
    print (py "ERROR: Packet has invalid type, dropping packet");;
    ret false
  else ret true.

Definition format_date (dt : datetime) (lang : language) : result pystr :=
  m <~ py_getitem (MONTHS lang) (month dt - 1);;
  match lang with
  | English =>
    Ok (py "Today's date is " ++ m ++ py " " ++ str_of_int (day dt)
        ++ py ", " ++ str_of_int (year dt))
  | Maori =>
    Ok (py "Ko te rā o tēnei rā ko " ++ m ++ py " " ++ str_of_int (day dt)
        ++ py ", " ++ str_of_int (year dt))
  | German =>
    Ok (py "Heute ist der " ++ str_of_int (day dt) ++ py ". " ++ m
        ++ py " " ++ str_of_int (year dt))
  end.

Definition format_time (dt : datetime) (lang : language) : pystr :=
  match lang with
  | English =>
    py "The current time is " ++ fmt02 (hour dt) ++ py ":" ++ fmt02 (minute dt)
  | Maori =>
    py "Ko te wā o tēnei wā " ++ fmt02 (hour dt) ++ py ":" ++ fmt02 (minute dt)
  | German =>
    py "Die Uhrzeit ist " ++ fmt02 (hour dt) ++ py ":" ++ fmt02 (minute dt)
  end.

(** The bytearray is updated in place; the model returns its new value. *)
Definition fill_packet_fields (ByteArr : bytes) (LangCode : Z) (Dt : datetime)
    (TextByte : bytes) : result bytes :=
  v <~ to_bytes2 MAGIC_NO;;
  let ByteArr := set_slice ByteArr 0 2 v in
  v <~ to_bytes2 DT_RESPONSE;;
  let ByteArr := set_slice ByteArr 2 4 v in
  v <~ to_bytes2 LangCode;;
  let ByteArr := set_slice ByteArr 4 6 v in
  v <~ to_bytes2 (year Dt);;
  let ByteArr := set_slice ByteArr 6 8 v in
  ByteArr <~ set_item ByteArr 8 (month Dt);;
  ByteArr <~ set_item ByteArr 9 (day Dt);;
  ByteArr <~ set_item ByteArr 10 (hour Dt);;
  ByteArr <~ set_item ByteArr 11 (minute Dt);;
  ByteArr <~ set_item ByteArr 12 (len TextByte);;
  Ok (set_slice_from ByteArr 13 TextByte).

(** What the environment decides for one call of [handle_request]: the
    clock's reading and whether [sendto] succeeds. *)
Record env : Type := mk_env {
  now : datetime;
  send_ok : bool
}.

Definition handle_request (E : env) (data : bytes) (addr : address)
    (sock : handle) (lang_code : Z) : M unit :=
  let magic_no := int_from_bytes (py_slice data 0 2) in
  let packet_type := int_from_bytes (py_slice data 2 4) in
  let request_type := int_from_bytes (py_slice data 4 6) in
  if negb (len data =? 6) then
    print (py "ERROR: Packet length incorrect for a DT_Request, dropping packet")
  else
    valid <- validate_field magic_no packet_type request_type;;
    if negb valid then ret tt
    else
      let dt := now E in
      lang <- lift (LANGUAGE_CODES lang_code);;
      text <- (if request_type =? 0x0001 then
                 text <- lift (format_date dt lang);;
                 print (language_name lang ++ py " received date request from "
                        ++ fst addr);;
                 ret text
               else
                 let text := format_time dt lang in
                 print (language_name lang ++ py " received time request from "
                        ++ fst addr);;
                 ret text);;
      text_bytes <- lift (str_encode text);;
      if 255 <? len text_bytes then
        print (py "ERROR: Text too long, dropping packet")
      else
        response <- lift (bytearray (13 + len text_bytes));;
        response <- lift (fill_packet_fields response lang_code dt text_bytes);;
        catch (sendto (send_ok E) sock response addr;;
               print (py "Response sent"))
              (fun _ => print (py "ERROR: Sending failed, dropping packet")).

(** What the system does when [bind_socket] asks for a socket. *)
Inductive bind_outcome : Type :=
  | CreateFails
  | BindFails (s : handle)
  | Bound (s : handle).

Definition bind_socket (o : bind_outcome) (port : Z) (language : pystr)
  : M (option handle) :=
  print (py "Binding " ++ language ++ py " to port " ++ str_of_int port);;
  match o with
  | CreateFails => print (py "ERROR: Socket creation failed");; ret None
  | BindFails s =>
    emit (NewSocket s);;
    print (py "ERROR: Socket binding failed");;
    close s;;
    ret None
  | Bound s => emit (NewSocket s);; emit (Bind s port);; ret (Some s)
  end.

(** [for x in xs: body x]. *)
Fixpoint for_each {A} (xs : list A) (body : A -> M unit) : M unit :=
  match xs with
  | [] => ret tt
  | x :: rest => body x;; for_each rest body
  end.

(** One datagram's worth of input to the loop: the ready socket, what
    [recvfrom] gives, and the environment of the handler. *)
Record arrival : Type := mk_arrival {
  a_sock : handle;
  a_recv : result (bytes * address);
  a_env : env
}.

Inductive ctl : Type := Next | Break.

(** The body of [for sock in ready_socks]. *)
Definition service (sockets : list handle) (a : arrival) : M ctl :=
  let sock := a_sock a in
  catch
    (r <- lift (a_recv a);;
     let data := fst r in
     let addr := snd r in
     s0 <- lift (py_getitem sockets 0);;
     if Nat.eqb sock s0 then
       handle_request (a_env a) data addr sock 0x0001;; ret Next
     else
       s1 <- lift (py_getitem sockets 1);;
       if Nat.eqb sock s1 then
         handle_request (a_env a) data addr sock 0x0002;; ret Next
       else
         s2 <- lift (py_getitem sockets 2);;
         if Nat.eqb sock s2 then
           handle_request (a_env a) data addr sock 0x0003;; ret Next
         else ret Break)
    (fun e =>
       match e with
       | SocketTimeout =>
         print (py "ERROR: Receiving timed out, dropping packet");; ret Next
       | _ => print (py "ERROR: Receiving failed, dropping packet");; ret Next
       end).

Fixpoint for_ready (sockets : list handle) (ready : list arrival) : M unit :=
  match ready with
  | [] => ret tt
  | a :: rest =>
    c <- service sockets a;;
    match c with
    | Next => for_ready sockets rest
    | Break => ret tt
    end
  end.

(** The [while True] loop over the wake-ups of [select] that are given. *)
Fixpoint serve (sockets : list handle) (wakeups : list (list arrival))
  : M unit :=
  match wakeups with
  | [] => ret tt
  | ready :: more =>
    print (py "Waiting for requests...");;
    for_ready sockets ready;;
    serve sockets more
  end.

Section CommandLine.

(** [int(arg)] on a command-line argument; [None] is its ValueError. *)
Variable int_of_str : pystr -> option Z.

Fixpoint parse_args (args : list pystr) (PortNums : list Z)
  : M (option (list Z)) :=
  match args with
  | [] => ret (Some PortNums)
  | arg :: rest =>
    match int_of_str arg with
    | Some port => parse_args rest (PortNums ++ [port])
    | None =>
      print (py "ERROR: Given port '" ++ arg ++ py "' is not a positive integer");;
      ret None
    end
  end.

Definition in_range (p : Z) : bool := (1024 <=? p) && (p <=? 64000).

(** [None] where the source returns None. *)
Definition get_valid_portnum (argv : list pystr) : M (option (list Z)) :=
  if negb (len argv =? 4) then
    print (py "ERROR: Incorrect number of command line arguments");;
    sys_exit 1
  else
    r <- parse_args (py_slice argv 1 (len argv)) [];;
    match r with
    | None => ret None
    | Some PortNums =>
      if negb (size (list_to_set PortNums : gset Z) =? 3)%nat then
        print (py "ERROR: Duplicate ports given");; ret None
      else if existsb (fun p => p <=? 0) PortNums then
        for_each PortNums (fun p =>
          if p <=? 0 then
            print (py "ERROR: Given port '" ++ str_of_int p
                   ++ py "' is not a positive integer")
          else ret tt);;
        ret None
      else if negb (forallb in_range PortNums) then
        for_each PortNums (fun p =>
          if negb (in_range p) then
            print (py "ERROR: Given port '" ++ str_of_int p
                   ++ py "' is not in the range [1024, 64000]")
          else ret tt);;
        ret None
      else ret (Some PortNums)
    end.

(** The loop that binds one socket per language; [binds i] is what the
    system does at the [i]-th one. *)
Fixpoint bind_all (binds : Z -> bind_outcome) (ports : list Z)
    (langs : list (Z * language)) (sockets : list handle)
  : M (list handle) :=
  match langs with
  | [] => ret sockets
  | (i, lang) :: rest =>
    port <- lift (py_getitem ports i);;
    sock <- bind_socket (binds i) port (language_name lang);;
    match sock with
    | None => for_each sockets close;; sys_exit 1
    | Some s => bind_all binds ports rest (sockets ++ [s])
    end
  end.

(** [main] up to the end of the wake-ups that are given. *)
Definition main (argv : list pystr) (binds : Z -> bind_outcome)
    (wakeups : list (list arrival)) : M unit :=
  ports <- get_valid_portnum argv;;
  match ports with
  | None | Some [] => sys_exit 1
  | Some ports =>
    sockets <- bind_all binds ports [(0, English); (1, Maori); (2, German)] [];;
    serve sockets wakeups
  end.

End CommandLine.

End Server.

(** * client.py *)

Module Client.

Definition MAGIC_NO : Z := 0x36FB.
Definition PACKET_TYPE : Z := 0x0001.
Definition DT_RESPONSE : Z := 0x0002.

Definition validate_and_get_request_type (argv : list pystr) : M Z :=
  if negb (len argv =? 4) then
    print (py "ERROR: Incorrect number of command line arguments");;
    sys_exit 1
  else
    kind <- lift (py_getitem argv 1);;
    if bool_decide (kind = py "date") then ret 0x0001
    else if bool_decide (kind = py "time") then ret 0x0002
    else
      print (py "ERROR: Request type '" ++ kind ++ py "' is not valid");;
      sys_exit 1.

(** [s.capitalize()] on the ASCII letters, which is all that "date" and
    "time" have. *)
Definition capitalize (s : pystr) : pystr :=
  match s with
  | [] => []
  | c :: rest =>
    (if (97 <=? c) && (c <=? 122) then c - 32 else c)
    :: map (fun c => if (65 <=? c) && (c <=? 90) then c + 32 else c) rest
  end.

(** The packet that [send_request] constructs. *)
Definition build_request (request_type : Z) : result bytes :=
  request <~ bytearray 6;;
  v <~ to_bytes2 MAGIC_NO;;
  let request := set_slice request 0 2 v in
  v <~ to_bytes2 PACKET_TYPE;;
  let request := set_slice request 2 4 v in
  v <~ to_bytes2 request_type;;
  let request := set_slice request 4 6 v in
  Ok request.

(** [kind] is [sys.argv[1]]; [ok] is whether [sendto] succeeds. *)
Definition send_request (ok : bool) (kind : pystr) (sock : handle)
    (addr : address) (request_type PortNum : Z) : M unit :=
  request <- lift (build_request request_type);;
  catch (sendto ok sock request addr;;
         print (capitalize kind ++ py " request sent to " ++ fst addr
                ++ py ":" ++ str_of_int PortNum))
        (fun _ => print (py "ERROR: Sending failed");; close sock;; sys_exit 1).

(** The tuple that [extract_response_data] returns. *)
Record fields : Type := mk_fields {
  f_magic_no : Z;
  f_packet_type : Z;
  f_lang_code : Z;
  f_text : pystr;
  f_text_length : Z;
  f_day : Z;
  f_month : Z;
  f_year : Z;
  f_hour : Z;
  f_minute : Z
}.

Definition too_small : pystr := py "ERROR: Packet is too small to be a DT_Response".
Definition invalid_text : pystr := py "ERROR: Packet has invalid text".
Definition bad_magic : pystr := py "ERROR: Packet magic number is incorrect".
Definition bad_type : pystr := py "ERROR: Packet is not a DT_Response".
Definition bad_language : pystr := py "ERROR: Packet has invalid language".
Definition bad_length : pystr := py "ERROR: Packet text length is incorrect".

Definition extract_response_data (response : bytes) (sock : handle) : M fields :=
  catch
    (lift (
       let magic_no := int_from_bytes (py_slice response 0 2) in
       let packet_type := int_from_bytes (py_slice response 2 4) in
       let lang_code := int_from_bytes (py_slice response 4 6) in
       let year := int_from_bytes (py_slice response 6 8) in
       month <~ py_getitem response 8;;
       day <~ py_getitem response 9;;
       hour <~ py_getitem response 10;;
       minute <~ py_getitem response 11;;
       text_length <~ py_getitem response 12;;
       text <~ bytes_decode (py_slice response 13 (13 + text_length));;
       Ok (mk_fields magic_no packet_type lang_code text text_length
                     day month year hour minute)))
    (fun e =>
       match e with
       | IndexError => print too_small;; close sock;; sys_exit 1
       | UnicodeDecodeError => print invalid_text;; close sock;; sys_exit 1
       | _ => raise e
       end).

Definition validate_response_packet_1 (sock : handle) (response : bytes)
    (magic_no packet_type lang_code text_length : Z) : M bool :=
  if len response <? 13 then
    print too_small;; close sock;; sys_exit 1
  else if negb (magic_no =? MAGIC_NO) then
    print bad_magic;; close sock;; sys_exit 1
  else if negb (packet_type =? DT_RESPONSE) then
    print bad_type;; close sock;; sys_exit 1
  else if negb ((lang_code =? 0x0001) || (lang_code =? 0x0002)
                || (lang_code =? 0x0003)) then
    print bad_language;; close sock;; sys_exit 1
  else if negb (len response =? 13 + text_length) then
    print bad_length;; close sock;; sys_exit 1
  else ret true.

Definition validate_response_packet_2 (sock : handle)
    (day month year hour minute : Z) : M bool :=
  if 2100 <=? year then
    print (py "ERROR: Packet has invalid year");; close sock;; sys_exit 1
  else if negb ((1 <=? month) && (month <=? 12)) then
    print (py "ERROR: Packet has invalid month");; close sock;; sys_exit 1
  else if negb ((1 <=? day) && (day <=? 31)) then
    print (py "ERROR: Packet has invalid day");; close sock;; sys_exit 1
  else if negb ((0 <=? hour) && (hour <=? 23)) then
    print (py "ERROR: Packet has invalid hour");; close sock;; sys_exit 1
  else if negb ((0 <=? minute) && (minute <=? 59)) then
    print (py "ERROR: Packet has invalid minute");; close sock;; sys_exit 1
  else ret true.

(** The dictionary literal of [print_response]. *)
Definition language_of_code (lang_code : Z) : result pystr :=
  if lang_code =? 0x0001 then Ok (py "English")
  else if lang_code =? 0x0002 then Ok (py "Māori")
  else if lang_code =? 0x0003 then Ok (py "German")
  else Raise KeyError.

Definition print_response (lang_code : Z) (text : pystr)
    (day month year hour minute : Z) : M unit :=
  lang_str <- lift (language_of_code lang_code);;
  print (lang_str ++ py " response received:");;
  print (py "Text: " ++ text);;
  print (py "Date: " ++ str_of_int day ++ py "/" ++ str_of_int month
         ++ py "/" ++ str_of_int year);;
  print (py "Time: " ++ fmt02 hour ++ py ":" ++ fmt02 minute).

Definition process_response (sock : handle) (response : bytes) : M unit :=
  f <- extract_response_data response sock;;
  ok1 <- validate_response_packet_1 sock response (f_magic_no f)
           (f_packet_type f) (f_lang_code f) (f_text_length f);;
  (if ok1 then
     ok2 <- validate_response_packet_2 sock (f_day f) (f_month f) (f_year f)
              (f_hour f) (f_minute f);;
     if ok2 then
       print_response (f_lang_code f) (f_text f) (f_day f) (f_month f)
         (f_year f) (f_hour f) (f_minute f)
     else ret tt
   else ret tt);;
  close sock.

(** One entry of the list [socket.getaddrinfo] returns:
    [(family, type, proto, canonname, sockaddr)]. *)
Definition addrinfo : Type := Z * Z * Z * pystr * address.

(** What the system gives the client: the name resolution, the socket,
    whether [connect] and [sendto] succeed, and what [recvfrom] returns. *)
Record system : Type := mk_system {
  getaddrinfo : pystr -> option Z -> result (list addrinfo);
  new_socket : result handle;
  connect_ok : bool;
  sendto_ok : bool;
  recvfrom : result (bytes * address)
}.

Section CommandLine.

(** [int(arg)] on a command-line argument; [None] is its ValueError. *)
Variable int_of_str : pystr -> option Z.

Variable os : system.

Definition py_int (arg : pystr) : result Z :=
  match int_of_str arg with
  | Some n => Ok n
  | None => Raise ValueError
  end.

Definition validate_and_get_port (argv : list pystr) : M Z :=
  catch (host <- lift (py_getitem argv 2);;
         _ <- lift (getaddrinfo os host None);;
         ret tt)
        (fun _ => print (py "ERROR: Hostname resolution failed");; sys_exit 1);;
  catch (arg <- lift (py_getitem argv 3);;
         port <- lift (py_int arg);;
         if port <=? 0 then
           print (py "ERROR: Given port '" ++ str_of_int port
                  ++ py "' is not a positive integer");;
           sys_exit 1
         else if negb ((1024 <=? port) && (port <=? 64000)) then
           print (py "ERROR: Given port '" ++ str_of_int port
                  ++ py "' is not in the range [1024, 64000]");;
           sys_exit 1
         else ret port)
        (fun e =>
           match e with
           | ValueError =>
             arg <- lift (py_getitem argv 3);;
             print (py "ERROR: Given port '" ++ arg
                    ++ py "' is not a positive integer");;
             sys_exit 1
           | _ => raise e
           end).

Definition create_socket_and_connect (argv : list pystr)
  : M (handle * address) :=
  catch (sock <- lift (new_socket os);;
         emit (NewSocket sock);;
         host <- lift (py_getitem argv 2);;
         arg <- lift (py_getitem argv 3);;
         port <- lift (py_int arg);;
         infos <- lift (getaddrinfo os host (Some port));;
         info <- lift (py_getitem infos 1);;
         let tuple := snd info in
         (if connect_ok os then ret tt else raise OSError);;
         ret (sock, tuple))
        (fun _ => print (py "ERROR: Socket creation failed");; sys_exit 1).

Definition main (argv : list pystr) : M unit :=
  request_type <- validate_and_get_request_type argv;;
  port <- validate_and_get_port argv;;
  sa <- create_socket_and_connect argv;;
  let sock := fst sa in
  let addr := snd sa in
  kind <- lift (py_getitem argv 1);;
  send_request (sendto_ok os) kind sock addr request_type port;;
  r <- catch (lift (recvfrom os))
         (fun e =>
            match e with
            | SocketTimeout =>
              print (py "ERROR: Receiving timed out");; close sock;; sys_exit 1
            | _ => print (py "ERROR: Receiving failed");; close sock;; sys_exit 1
            end);;
  process_response sock (fst r).

End CommandLine.

End Client.

(** * Vocabulary of the statements *)

Arguments py : simpl never.

(** The layout that [fill_packet_fields] writes over any buffer of at
    least thirteen bytes. *)
Definition response_layout (LangCode : Z) (Dt : datetime) (TextByte : bytes)
  : bytes :=
  [0x36; 0xFB; 0x00; 0x02; LangCode / 256; LangCode mod 256;
   year Dt / 256; year Dt mod 256; month Dt; day Dt; hour Dt; minute Dt;
   len TextByte] ++ TextByte.

(** The fields fit the layout: two bytes for the year, one for the others. *)
Definition fits (Dt : datetime) : Prop :=
  0 <= year Dt < 65536 /\ 0 <= month Dt < 256 /\ 0 <= day Dt < 256
  /\ 0 <= hour Dt < 256 /\ 0 <= minute Dt < 256.

(** The text the handler formats for a request type. *)
Definition request_text (dt : datetime) (lang : language) (request_type : Z)
  : result pystr :=
  if request_type =? 0x0001 then Server.format_date dt lang
  else Ok (Server.format_time dt lang).

(** The line the handler logs when it accepts a request. *)
Definition received_line (lang : language) (request_type : Z) (addr : address)
  : pystr :=
  language_name lang
  ++ (if request_type =? 0x0001 then py " received date request from "
      else py " received time request from ")
  ++ fst addr.

(** The three fields the handler reads from a datagram. *)
Definition magic_of (data : bytes) : Z := int_from_bytes (py_slice data 0 2).

Definition type_of (data : bytes) : Z := int_from_bytes (py_slice data 2 4).

Definition request_of (data : bytes) : Z := int_from_bytes (py_slice data 4 6).

(** A datagram that passes the length check and the three field checks. *)
Definition valid_request (data : bytes) : Prop :=
  len data = 6 /\ magic_of data = 0x36FB /\ type_of data = 0x0001
  /\ (request_of data = 0x0001 \/ request_of data = 0x0002).

(** Byte length of the UTF-8 encoding. *)
Definition ulen (s : pystr) : Z := len (utf8_bytes s).

Definition is_ascii (c : Z) : bool := (0 <=? c) && (c <? 0x80).

Definition month_name_ok (m : pystr) : bool :=
  forallb is_scalar m && (ulen m <=? 17).

(** What the command line has to be for the check to pass. *)
Definition ports_accepted (int_of_str : pystr -> option Z)
    (argv : list pystr) (ports : list Z) : Prop :=
  exists prog a1 a2 a3 p1 p2 p3,
    argv = [prog; a1; a2; a3]
    /\ int_of_str a1 = Some p1 /\ int_of_str a2 = Some p2
    /\ int_of_str a3 = Some p3
    /\ ports = [p1; p2; p3]
    /\ p1 <> p2 /\ p1 <> p3 /\ p2 <> p3
    /\ 1024 <= p1 <= 64000 /\ 1024 <= p2 <= 64000 /\ 1024 <= p3 <= 64000.

(** A refusal: None or exit status 1, after log lines only. *)
Definition refused (r : result (option (list Z))) : Prop :=
  r = Ok None \/ r = Raise (SystemExit 1).

(** The error line of the first structural check that fails, none if all
    of them pass. *)
Definition structural_error (response : bytes) (text_length : Z)
  : option pystr :=
  if len response <? 13 then Some Client.too_small
  else if negb (magic_of response =? 0x36FB) then Some Client.bad_magic
  else if negb (type_of response =? 0x0002) then Some Client.bad_type
  else if negb ((int_from_bytes (py_slice response 4 6) =? 0x0001)
                || (int_from_bytes (py_slice response 4 6) =? 0x0002)
                || (int_from_bytes (py_slice response 4 6) =? 0x0003))
       then Some Client.bad_language
  else if negb (len response =? 13 + text_length) then Some Client.bad_length
  else None.

(** The ranges of the semantic pass. *)
Definition in_ranges (day month year hour minute : Z) : Prop :=
  year < 2100 /\ 1 <= month <= 12 /\ 1 <= day <= 31
  /\ 0 <= hour <= 23 /\ 0 <= minute <= 59.

(** The pass accepts: it returns True and does nothing else. *)
Definition accepts (day month year hour minute : Z) : Prop :=
  forall sock w,
    Client.validate_response_packet_2 sock day month year hour minute w
    = (Ok true, w).

(** The pass rejects: one error line, the socket closed, exit status 1. *)
Definition rejects (day month year hour minute : Z) : Prop :=
  forall sock w, exists line,
    Client.validate_response_packet_2 sock day month year hour minute w
    = (Raise (SystemExit 1), Close sock :: Stdout line :: w).

(** ** Sample values *)

Definition sample_time : datetime := mk_datetime 2024 5 17 14 7.

Definition sample_env : Server.env := Server.mk_env sample_time true.

Definition sample_addr : address := (py "127.0.0.1", 50412).

Definition date_request : bytes := [0x36; 0xFB; 0x00; 0x01; 0x00; 0x01].

Definition time_request : bytes := [0x36; 0xFB; 0x00; 0x01; 0x00; 0x02].

(** The English reply to [date_request] at [sample_time]. *)
Definition sample_response : bytes :=
  [0x36; 0xFB; 0x00; 0x02; 0x00; 0x01; 0x07; 0xE8; 5; 17; 14; 7; 28]
  ++ utf8_bytes (py "Today's date is May 17, 2024").

(** A header that declares one byte of text, with no text after it. *)
Definition truncated_response : bytes :=
  [0x36; 0xFB; 0x00; 0x02; 0x00; 0x01; 0x07; 0xE8; 5; 17; 14; 7; 1].

(** The number that a string of decimal digits writes. *)
Definition decimal_value (s : pystr) : Z :=
  fold_left (fun acc c => acc * 10 + (c - 48)) s 0.

(** Plain decimal literals, for [int] in the examples. *)
Definition decimal_int (s : pystr) : option Z :=
  match s with
  | [] => None
  | _ =>
    fold_left (fun acc c =>
                 match acc with
                 | Some n =>
                   if (48 <=? c) && (c <=? 57) then Some (n * 10 + (c - 48))
                   else None
                 | None => None
                 end) s (Some 0)
  end.
(** ** More vocabulary *)

(** The three log lines of the binding loop. *)
Definition binding_line (lang : language) (port : Z) : pystr :=
  py "Binding " ++ language_name lang ++ py " to port " ++ str_of_int port.

(** A bind outcome that is a failure. *)
Definition bind_fails (o : Server.bind_outcome) : Prop :=
  match o with
  | Server.Bound _ => False
  | _ => True
  end.

(** The header and length are as the structural pass wants them. *)
Definition well_formed (response : bytes) (magic_no packet_type lang_code
    text_length : Z) : Prop :=
  13 <= len response /\ magic_no = 0x36FB /\ packet_type = 0x0002
  /\ (lang_code = 0x0001 \/ lang_code = 0x0002 \/ lang_code = 0x0003)
  /\ len response = 13 + text_length.

(** The line printed after the request is sent. *)
Definition request_sent_line (kind : pystr) (addr : address) (port : Z)
  : pystr :=
  Client.capitalize kind ++ py " request sent to " ++ fst addr ++ py ":"
  ++ str_of_int port.

(** The command line asks for the request with these bytes. *)
Definition asks_for (kind : pystr) (request : bytes) : Prop :=
  (kind = py "date" /\ request = date_request)
  \/ (kind = py "time" /\ request = time_request).

(** The two lines about one port of the command line. *)
Definition not_positive_line (p : Z) : pystr :=
  py "ERROR: Given port '" ++ str_of_int p ++ py "' is not a positive integer".

Definition not_in_range_line (p : Z) : pystr :=
  py "ERROR: Given port '" ++ str_of_int p
  ++ py "' is not in the range [1024, 64000]".

(** The lines printed for the ports that are [bad], the last one first. *)
Definition port_lines (bad : Z -> bool) (line : Z -> pystr) (ports : list Z)
  : trace :=
  rev (map (fun p => Stdout (line p)) (List.filter bad ports)).

(** A system in which everything works: the host has three entries, the
    socket is number 7, and [recv] is what the receive gives. *)
Definition sample_system (recv : result (bytes * address)) : Client.system :=
  Client.mk_system
    (fun _ port =>
       Ok [(2, 1, 6, [], (py "127.0.0.1", default 0 port));
           (2, 2, 17, [], (py "127.0.0.1", default 0 port));
           (2, 3, 0, [], (py "127.0.0.1", default 0 port))])
    (Ok 7%nat) true true recv.

Definition client_argv : list pystr :=
  [py "client.py"; py "time"; py "localhost"; py "30001"].

Definition server_argv : list pystr :=
  [py "server.py"; py "30001"; py "30002"; py "30003"].

(** * Properties of the runtime model *)

Ltac zbool :=
  repeat match goal with
  | |- context [?a <? ?b] => destruct (Z.ltb_spec a b); try lia
  | |- context [?a <=? ?b] => destruct (Z.leb_spec a b); try lia
  | |- context [?a =? ?b] => destruct (Z.eqb_spec a b); try lia
  end.

(** Turn [Z.to_nat] of a literal into the numeral. *)
Ltac to_nat_lit :=
  repeat match goal with
  | |- context [Z.to_nat (Zpos ?p)] =>
    let n := eval vm_compute in (Z.to_nat (Zpos p)) in
    change (Z.to_nat (Zpos p)) with n
  | |- context [Z.to_nat 0] => change (Z.to_nat 0) with 0%nat
  end.

Section Slices.

Context {A : Type}.
Implicit Types l : list A.

Lemma py_slice_nonneg l i j :
  0 <= i -> 0 <= j ->
  py_slice l i j = take (Z.to_nat (j - i)) (drop (Z.to_nat i) l).
Proof.
  intros Hi Hj. unfold py_slice, clip, len.
  destruct (Z.ltb_spec i 0); [lia|]. destruct (Z.ltb_spec j 0); [lia|].
  destruct (Z_le_gt_dec (Z.of_nat (length l)) i) as [Hge|Hlt].
  - rewrite (drop_ge l (Z.to_nat i)) by lia.
    rewrite drop_ge by lia. by rewrite !take_nil.
  - replace (Z.min i (Z.of_nat (length l))) with i by lia.
    destruct (Z_le_gt_dec j (Z.of_nat (length l))).
    + by replace (Z.min j (Z.of_nat (length l))) with j by lia.
    + replace (Z.min j (Z.of_nat (length l))) with (Z.of_nat (length l)) by lia.
      rewrite !take_ge; [done| |]; rewrite length_drop; lia.
Qed.

Lemma py_getitem_nonneg l i x :
  0 <= i -> l !! Z.to_nat i = Some x -> py_getitem l i = Ok x.
Proof.
  intros Hi Hx. unfold py_getitem.
  destruct (Z.ltb_spec i 0); [lia|]. destruct (Z.ltb_spec i 0); [lia|].
  by rewrite Hx.
Qed.

Lemma py_getitem_short l i :
  0 <= i -> len l <= i -> py_getitem l i = Raise IndexError.
Proof.
  intros Hi Hx. unfold py_getitem, len in *.
  destruct (Z.ltb_spec i 0); [lia|]. destruct (Z.ltb_spec i 0); [lia|].
  rewrite (lookup_ge_None_2 l) by lia. done.
Qed.

End Slices.

Lemma set_slice_nonneg arr i j v :
  0 <= i <= j ->
  set_slice arr i j v = take (Z.to_nat i) arr ++ v ++ drop (Z.to_nat j) arr.
Proof.
  intros Hij. unfold set_slice, clip, len.
  destruct (Z.ltb_spec i 0); [lia|]. destruct (Z.ltb_spec j 0); [lia|].
  f_equal; [|f_equal].
  - destruct (Z_le_gt_dec (Z.of_nat (length arr)) i).
    + rewrite !take_ge; [done|lia|lia].
    + f_equal. lia.
  - destruct (Z_le_gt_dec (Z.of_nat (length arr)) j).
    + rewrite !drop_ge; [done|lia|lia].
    + f_equal. lia.
Qed.

Lemma set_slice_from_nonneg arr i v :
  0 <= i <= len arr ->
  set_slice_from arr i v = take (Z.to_nat i) arr ++ v.
Proof.
  intros Hi. unfold set_slice_from. rewrite set_slice_nonneg by done.
  unfold len. rewrite drop_ge by lia. by rewrite app_nil_r.
Qed.

Lemma set_item_ok arr i x :
  0 <= i < len arr -> 0 <= x < 256 ->
  set_item arr i x = Ok (<[Z.to_nat i := x]> arr).
Proof.
  intros Hi Hx. unfold set_item, is_byte. zbool. done.
Qed.

Lemma to_bytes2_ok n :
  0 <= n < 65536 -> to_bytes2 n = Ok [n / 256; n mod 256].
Proof. intros Hn. unfold to_bytes2. zbool. done. Qed.

Lemma int_from_bytes_2 a b : int_from_bytes [a; b] = a * 256 + b.
Proof. unfold int_from_bytes. simpl. lia. Qed.

Lemma int_from_to_bytes2 n : int_from_bytes [n / 256; n mod 256] = n.
Proof. rewrite int_from_bytes_2. pose proof (Z.div_mod n 256). lia. Qed.

(** ** UTF-8: decoding an encoding gives the text back *)

Lemma utf8_decode_1 b0 rest :
  0 <= b0 < 0x80 ->
  utf8_decode (b0 :: rest) = cons b0 <$> utf8_decode rest.
Proof. intros H. cbn [utf8_decode]. zbool. done. Qed.

Lemma utf8_decode_2 b0 b1 rest :
  0xC0 <= b0 < 0xE0 -> 0x80 <= b1 < 0xC0 ->
  0x80 <= (b0 - 0xC0) * 64 + (b1 - 0x80) ->
  utf8_decode (b0 :: b1 :: rest)
  = cons ((b0 - 0xC0) * 64 + (b1 - 0x80)) <$> utf8_decode rest.
Proof.
  intros H0 H1 Hc. cbn [utf8_decode]. unfold is_cont.
  cbv zeta. zbool. done.
Qed.

Lemma utf8_decode_3 b0 b1 b2 rest :
  let c := (b0 - 0xE0) * 4096 + (b1 - 0x80) * 64 + (b2 - 0x80) in
  0xE0 <= b0 < 0xF0 -> 0x80 <= b1 < 0xC0 -> 0x80 <= b2 < 0xC0 ->
  0x800 <= c -> is_scalar c = true ->
  utf8_decode (b0 :: b1 :: b2 :: rest) = cons c <$> utf8_decode rest.
Proof.
  intros c H0 H1 H2 Hc Hs. cbn [utf8_decode]. unfold is_cont.
  fold c. rewrite Hs. zbool. done.
Qed.

Lemma utf8_decode_4 b0 b1 b2 b3 rest :
  let c := (b0 - 0xF0) * 262144 + (b1 - 0x80) * 4096
           + (b2 - 0x80) * 64 + (b3 - 0x80) in
  0xF0 <= b0 < 0xF8 -> 0x80 <= b1 < 0xC0 -> 0x80 <= b2 < 0xC0 ->
  0x80 <= b3 < 0xC0 -> 0x10000 <= c -> is_scalar c = true ->
  utf8_decode (b0 :: b1 :: b2 :: b3 :: rest) = cons c <$> utf8_decode rest.
Proof.
  intros c H0 H1 H2 H3 Hc Hs. cbn [utf8_decode]. unfold is_cont.
  fold c. rewrite Hs. zbool. done.
Qed.

Lemma is_scalar_range c : is_scalar c = true -> 0 <= c <= 0x10FFFF.
Proof. unfold is_scalar. zbool; simpl; intros; (lia || discriminate). Qed.

Lemma utf8_decode_encode_cp c rest :
  is_scalar c = true ->
  utf8_decode (utf8_encode_cp c ++ rest) = cons c <$> utf8_decode rest.
Proof.
  intros Hs. pose proof (is_scalar_range c Hs) as Hr.
  unfold utf8_encode_cp.
  destruct (Z.ltb_spec c 0x80); [|destruct (Z.ltb_spec c 0x800);
    [|destruct (Z.ltb_spec c 0x10000)]]; cbn [app].
  - apply utf8_decode_1. lia.
  - pose proof (Z.div_mod c 64). pose proof (Z.mod_pos_bound c 64).
    rewrite utf8_decode_2 by lia. do 2 f_equal. lia.
  - replace (c / 4096) with (c / 64 / 64) by (rewrite Z.div_div; lia || done).
    pose proof (Z.div_mod c 64). pose proof (Z.mod_pos_bound c 64).
    pose proof (Z.div_mod (c / 64) 64).
    pose proof (Z.mod_pos_bound (c / 64) 64).
    set (q := c / 64) in *. set (r := c mod 64) in *.
    set (q2 := q / 64) in *. set (r2 := q mod 64) in *.
    assert (Hc : (0xE0 + q2 - 0xE0) * 4096 + (0x80 + r2 - 0x80) * 64
                 + (0x80 + r - 0x80) = c) by lia.
    rewrite utf8_decode_3; rewrite ?Hc; [done|lia..|done].
  - replace (c / 262144) with (c / 64 / 64 / 64)
      by (rewrite !Z.div_div; lia || done).
    replace (c / 4096) with (c / 64 / 64) by (rewrite Z.div_div; lia || done).
    pose proof (Z.div_mod c 64). pose proof (Z.mod_pos_bound c 64).
    pose proof (Z.div_mod (c / 64) 64).
    pose proof (Z.mod_pos_bound (c / 64) 64).
    pose proof (Z.div_mod (c / 64 / 64) 64).
    pose proof (Z.mod_pos_bound (c / 64 / 64) 64).
    set (q := c / 64) in *. set (r := c mod 64) in *.
    set (q2 := q / 64) in *. set (r2 := q mod 64) in *.
    set (q3 := q2 / 64) in *. set (r3 := q2 mod 64) in *.
    assert (Hc : (0xF0 + q3 - 0xF0) * 262144 + (0x80 + r3 - 0x80) * 4096
                 + (0x80 + r2 - 0x80) * 64 + (0x80 + r - 0x80) = c) by lia.
    rewrite utf8_decode_4; rewrite ?Hc; [done|lia..|done].
Qed.

Lemma utf8_decode_encode s :
  forallb is_scalar s = true -> utf8_decode (utf8_bytes s) = Some s.
Proof.
  induction s as [|c s IH]; [done|]. cbn [forallb].
  intros [Hc Hs]%andb_prop. unfold utf8_bytes. cbn [map concat].
  rewrite utf8_decode_encode_cp by done.
  fold (utf8_bytes s). by rewrite IH.
Qed.

Lemma bytes_decode_encode s tb :
  str_encode s = Ok tb -> bytes_decode tb = Ok s.
Proof.
  unfold str_encode, bytes_decode.
  destruct (forallb is_scalar s) eqn:Hs; [|done].
  intros [= <-]. by rewrite utf8_decode_encode.
Qed.

(** * The response codec *)

Lemma fill_packet_fields_layout ByteArr LangCode Dt TextByte :
  13 <= len ByteArr -> 0 <= LangCode < 65536 -> fits Dt ->
  len TextByte <= 255 ->
  Server.fill_packet_fields ByteArr LangCode Dt TextByte
  = Ok (response_layout LangCode Dt TextByte).
Proof.
  intros Hlen Hlc (Hy & Hmo & Hd & Hh & Hmi) Htb.
  do 13 (destruct ByteArr as [|? ByteArr]; [unfold len in Hlen; simpl in Hlen; lia|]).
  unfold Server.fill_packet_fields.
  rewrite (to_bytes2_ok Server.MAGIC_NO) by (unfold Server.MAGIC_NO; lia).
  rewrite (to_bytes2_ok Server.DT_RESPONSE) by (unfold Server.DT_RESPONSE; lia).
  rewrite !to_bytes2_ok by done. cbn [rbind].
  rewrite !set_slice_nonneg by lia. to_nat_lit. cbn [take drop app].
  assert (Hb : 0 <= len TextByte < 256) by (unfold len in *; lia).
  do 5 (rewrite set_item_ok by (try done; unfold len; cbn [length]; lia);
        cbn [rbind]; to_nat_lit; cbn [list_insert insert]).
  rewrite set_slice_from_nonneg by (unfold len; cbn [length]; lia).
  to_nat_lit. cbn [take app]. reflexivity.
Qed.

Lemma bytearray_len n : 0 <= n -> exists arr, bytearray n = Ok arr /\ len arr = n.
Proof.
  intros Hn. unfold bytearray. zbool. eexists; split; [done|].
  unfold len. rewrite length_replicate. lia.
Qed.

Section ResponseLayout.

Variables (LangCode : Z) (Dt : datetime) (TextByte : bytes).
Let pkt := response_layout LangCode Dt TextByte.

Lemma layout_len : len pkt = 13 + len TextByte.
Proof. unfold pkt, response_layout, len. rewrite length_app. simpl length. lia. Qed.

Lemma layout_magic : int_from_bytes (py_slice pkt 0 2) = 0x36FB.
Proof. rewrite py_slice_nonneg by lia. reflexivity. Qed.

Lemma layout_type : int_from_bytes (py_slice pkt 2 4) = 0x0002.
Proof. rewrite py_slice_nonneg by lia. reflexivity. Qed.

Lemma layout_lang : int_from_bytes (py_slice pkt 4 6) = LangCode.
Proof.
  rewrite py_slice_nonneg by lia.
  change (int_from_bytes [LangCode / 256; LangCode mod 256] = LangCode).
  apply int_from_to_bytes2.
Qed.

Lemma layout_year : int_from_bytes (py_slice pkt 6 8) = year Dt.
Proof.
  rewrite py_slice_nonneg by lia.
  change (int_from_bytes [year Dt / 256; year Dt mod 256] = year Dt).
  apply int_from_to_bytes2.
Qed.

Lemma layout_month : py_getitem pkt 8 = Ok (month Dt).
Proof. by apply py_getitem_nonneg. Qed.

Lemma layout_day : py_getitem pkt 9 = Ok (day Dt).
Proof. by apply py_getitem_nonneg. Qed.

Lemma layout_hour : py_getitem pkt 10 = Ok (hour Dt).
Proof. by apply py_getitem_nonneg. Qed.

Lemma layout_minute : py_getitem pkt 11 = Ok (minute Dt).
Proof. by apply py_getitem_nonneg. Qed.

Lemma layout_length : py_getitem pkt 12 = Ok (len TextByte).
Proof. by apply py_getitem_nonneg. Qed.

Lemma layout_text : py_slice pkt 13 (13 + len TextByte) = TextByte.
Proof.
  rewrite py_slice_nonneg by (unfold len; lia).
  replace (Z.to_nat (13 + len TextByte - 13)) with (length TextByte)
    by (unfold len; lia).
  to_nat_lit. unfold pkt, response_layout.
  cbn [app drop]. by rewrite take_ge.
Qed.

End ResponseLayout.

(** Decoding a laid-out response whose text is the encoding of [text]. *)
Lemma extract_response_layout LangCode Dt text TextByte sock w :
  str_encode text = Ok TextByte ->
  Client.extract_response_data (response_layout LangCode Dt TextByte) sock w
  = (Ok (Client.mk_fields 0x36FB 0x0002 LangCode text (len TextByte)
           (day Dt) (month Dt) (year Dt) (hour Dt) (minute Dt)), w).
Proof.
  intros Henc. unfold Client.extract_response_data, catch, lift.
  rewrite layout_magic, layout_type, layout_lang, layout_year, layout_month,
    layout_day, layout_hour, layout_minute, layout_length.
  cbn [rbind]. rewrite layout_text, (bytes_decode_encode _ _ Henc). done.
Qed.

(** C1: for a language code among 1, 2, 3, a date-time whose year fits in 16
    bits and whose month, day, hour and minute fit in a byte, and a text
    whose UTF-8 encoding has at most 255 bytes, [fill_packet_fields] over a
    zeroed buffer of 13+N bytes succeeds, and the client's
    [extract_response_data] on the result returns the same language code,
    year, month, day, hour, minute and text without raising or printing;
    the decoded fields pass [validate_response_packet_1], and pass
    [validate_response_packet_2] when the date-time fields are in the
    valid ranges. *)
Theorem response_round_trip LangCode Dt text TextByte sock w :
  LangCode = 0x0001 \/ LangCode = 0x0002 \/ LangCode = 0x0003 ->
  fits Dt ->
  str_encode text = Ok TextByte ->
  len TextByte <= 255 ->
  exists ByteArr pkt f,
    bytearray (13 + len TextByte) = Ok ByteArr
    /\ Server.fill_packet_fields ByteArr LangCode Dt TextByte = Ok pkt
    /\ Client.extract_response_data pkt sock w = (Ok f, w)
    /\ Client.f_lang_code f = LangCode
    /\ Client.f_year f = year Dt /\ Client.f_month f = month Dt
    /\ Client.f_day f = day Dt /\ Client.f_hour f = hour Dt
    /\ Client.f_minute f = minute Dt /\ Client.f_text f = text
    /\ Client.validate_response_packet_1 sock pkt (Client.f_magic_no f)
         (Client.f_packet_type f) (Client.f_lang_code f)
         (Client.f_text_length f) w = (Ok true, w)
    /\ (year Dt < 2100 /\ 1 <= month Dt <= 12 /\ 1 <= day Dt <= 31
        /\ 0 <= hour Dt <= 23 /\ 0 <= minute Dt <= 59 ->
        Client.validate_response_packet_2 sock (Client.f_day f)
          (Client.f_month f) (Client.f_year f) (Client.f_hour f)
          (Client.f_minute f) w = (Ok true, w)).
Proof.
  intros Hlc Hfit Henc Hlen.
  destruct (bytearray_len (13 + len TextByte)) as (ByteArr & Hba & Hbl);
    [unfold len; lia|].
  exists ByteArr, (response_layout LangCode Dt TextByte). eexists.
  split; [done|]. split.
  { apply fill_packet_fields_layout; [unfold len in *; lia|lia|done|done]. }
  split; [by apply extract_response_layout|].
  cbn [Client.f_lang_code Client.f_year Client.f_month Client.f_day
       Client.f_hour Client.f_minute Client.f_text Client.f_magic_no
       Client.f_packet_type Client.f_text_length].
  repeat (split; [done|]). split.
  - unfold Client.validate_response_packet_1.
    rewrite layout_len. unfold Client.MAGIC_NO, Client.DT_RESPONSE.
    assert (0 <= len TextByte) by (unfold len; lia).
    zbool; done.
  - intros (Hy & Hmo & Hd & Hh & Hmi).
    unfold Client.validate_response_packet_2. zbool. done.
Qed.

Lemma response_round_trip_witness :
  exists ByteArr pkt f,
    bytearray (13 + len (utf8_bytes (Server.format_time sample_time Maori)))
    = Ok ByteArr
    /\ Server.fill_packet_fields ByteArr 0x0002 sample_time
         (utf8_bytes (Server.format_time sample_time Maori)) = Ok pkt
    /\ Client.extract_response_data pkt 3%nat [] = (Ok f, [])
    /\ Client.f_lang_code f = 0x0002
    /\ Client.f_text f = Server.format_time sample_time Maori.
Proof.
  destruct (response_round_trip 0x0002 sample_time
              (Server.format_time sample_time Maori)
              (utf8_bytes (Server.format_time sample_time Maori)) 3%nat [])
    as (ByteArr & pkt & f & Hba & Hfill & Hext & Hlc & _ & _ & _ & _ & _
        & Htext & _).
  - right. left. reflexivity.
  - unfold fits. simpl. lia.
  - vm_compute. reflexivity.
  - vm_compute. discriminate.
  - exists ByteArr, pkt, f. repeat split; assumption.
Defined.

(** * The responder *)

Lemma validate_field_true MagicNo PacketType RequestType w :
  MagicNo = 0x36FB -> PacketType = 0x0001 ->
  RequestType = 0x0001 \/ RequestType = 0x0002 ->
  Server.validate_field MagicNo PacketType RequestType w = (Ok true, w).
Proof.
  intros -> -> Hr. unfold Server.validate_field, Server.MAGIC_NO,
    Server.DT_REQUEST. cbn [Z.eqb Pos.eqb negb].
  destruct Hr as [-> | ->]; reflexivity.
Qed.

Lemma handle_request_valid E data addr sock lang_code lang text tb w :
  valid_request data ->
  Server.LANGUAGE_CODES lang_code = Ok lang ->
  request_text (Server.now E) lang (request_of data) = Ok text ->
  str_encode text = Ok tb ->
  Server.handle_request E data addr sock lang_code w =
    let w1 := Stdout (received_line lang (request_of data) addr) :: w in
    if 255 <? len tb then
      (Ok tt, Stdout (py "ERROR: Text too long, dropping packet") :: w1)
    else
      match Server.fill_packet_fields (replicate (Z.to_nat (13 + len tb)) 0)
              lang_code (Server.now E) tb with
      | Ok response =>
        if Server.send_ok E then
          (Ok tt, Stdout (py "Response sent") :: SendTo sock response addr :: w1)
        else (Ok tt, Stdout (py "ERROR: Sending failed, dropping packet") :: w1)
      | Raise e => (Raise e, w1)
      end.
Proof.
  intros (Hlen & Hm & Ht & Hr) Hlang Htext Henc.
  unfold Server.handle_request.
  fold (magic_of data) (type_of data) (request_of data).
  rewrite Hlen. cbn [Z.eqb Pos.eqb negb].
  unfold bind at 1. rewrite validate_field_true by done. cbn [negb].
  unfold bind at 1. unfold lift at 1. rewrite Hlang.
  unfold request_text, received_line in *.
  unfold bind at 1.
  assert (Hpre :
    (if request_of data =? 1
     then text0 <- lift (Server.format_date (Server.now E) lang);;
          print (language_name lang ++ py " received date request from "
                 ++ addr.1);;
          ret text0
     else print (language_name lang ++ py " received time request from "
                 ++ addr.1);;
          ret (Server.format_time (Server.now E) lang)) w
    = (Ok text,
       Stdout (language_name lang
              ++ (if request_of data =? 1
                  then py " received date request from "
                  else py " received time request from ") ++ addr.1) :: w)).
  { destruct (request_of data =? 1).
    - unfold bind, lift, print, emit, ret. rewrite Htext. done.
    - unfold bind, lift, print, emit, ret. by injection Htext as ->. }
  rewrite Hpre. clear Hpre.
  unfold bind at 1. unfold lift at 1. rewrite Henc. cbv zeta.
  destruct (255 <? len tb); [reflexivity|].
  unfold bind at 1. unfold lift at 1. unfold bytearray.
  destruct (Z.ltb_spec (13 + len tb) 0); [unfold len in *; lia|].
  unfold bind at 1. unfold lift at 1.
  destruct (Server.fill_packet_fields _ _ _ _) as [response|e]; [|done].
  unfold catch, bind, sendto, print, emit, raise.
  destruct (Server.send_ok E); reflexivity.
Qed.

(** A request that is refused logs one line and nothing else happens. *)
Lemma handle_request_refused E data addr sock lang_code line w :
  len data = 6 ->
  Server.validate_field (magic_of data) (type_of data) (request_of data) w
  = (Ok false, Stdout line :: w) ->
  Server.handle_request E data addr sock lang_code w
  = (Ok tt, Stdout line :: w).
Proof.
  intros Hlen Hv. unfold Server.handle_request.
  fold (magic_of data) (type_of data) (request_of data).
  rewrite Hlen. cbn [Z.eqb Pos.eqb negb]. unfold bind. by rewrite Hv.
Qed.

(** C2: the responder checks the magic number first, then the packet type,
    then the request type, and stops at the first check that fails; a
    6-byte datagram that fails one of them makes [handle_request] log the
    line of that check, return, and send nothing. *)
Theorem request_validation_order E data addr sock lang_code w :
  len data = 6 ->
  magic_of data <> 0x36FB \/ type_of data <> 0x0001
  \/ (request_of data <> 0x0001 /\ request_of data <> 0x0002) ->
  exists line,
    Server.validate_field (magic_of data) (type_of data) (request_of data) w
    = (Ok false, Stdout line :: w)
    /\ Server.handle_request E data addr sock lang_code w
       = (Ok tt, Stdout line :: w)
    /\ sent (Stdout line :: w) = sent w
    /\ (magic_of data <> 0x36FB ->
        line = py "ERROR: Packet magic number is incorrect, dropping packet")
    /\ (magic_of data = 0x36FB -> type_of data <> 0x0001 ->
        line = py "ERROR: Packet is not a DT_Request, dropping packet")
    /\ (magic_of data = 0x36FB -> type_of data = 0x0001 ->
        line = py "ERROR: Packet has invalid type, dropping packet").
Proof.
  intros Hlen Hbad.
  assert (Hv : exists line,
    Server.validate_field (magic_of data) (type_of data) (request_of data) w
    = (Ok false, Stdout line :: w)
    /\ (magic_of data <> 0x36FB ->
        line = py "ERROR: Packet magic number is incorrect, dropping packet")
    /\ (magic_of data = 0x36FB -> type_of data <> 0x0001 ->
        line = py "ERROR: Packet is not a DT_Request, dropping packet")
    /\ (magic_of data = 0x36FB -> type_of data = 0x0001 ->
        line = py "ERROR: Packet has invalid type, dropping packet")).
  { unfold Server.validate_field, Server.MAGIC_NO, Server.DT_REQUEST.
    destruct (Z.eqb_spec (magic_of data) 0x36FB) as [Hm|Hm]; cbn [negb].
    2:{ eexists; split; [reflexivity|]. repeat split; intros; done. }
    destruct (Z.eqb_spec (type_of data) 0x0001) as [Ht|Ht]; cbn [negb].
    2:{ eexists; split; [reflexivity|]. repeat split; intros; done. }
    destruct (Z.eqb_spec (request_of data) 0x0001) as [Hr1|Hr1];
      [exfalso; intuition lia|].
    destruct (Z.eqb_spec (request_of data) 0x0002) as [Hr2|Hr2];
      [exfalso; intuition lia|].
    cbn [orb negb]. eexists; split; [reflexivity|].
    repeat split; intros; done. }
  destruct Hv as (line & Hv & H1 & H2 & H3). exists line.
  split; [done|]. split; [by apply handle_request_refused|].
  split; [reflexivity|]. done.
Qed.

Lemma request_validation_order_witness :
  exists line,
    Server.handle_request sample_env [0x36; 0xFB; 0x00; 0x02; 0x00; 0x01]
      sample_addr 3%nat 0x0001 []
    = (Ok tt, [Stdout line])
    /\ line = py "ERROR: Packet is not a DT_Request, dropping packet".
Proof.
  destruct (request_validation_order sample_env
              [0x36; 0xFB; 0x00; 0x02; 0x00; 0x01] sample_addr 3%nat 0x0001 [])
    as (line & _ & Hrun & _ & _ & Htype & _).
  - reflexivity.
  - right. left. vm_compute. discriminate.
  - exists line. split; [exact Hrun|].
    apply Htype; [reflexivity|vm_compute; discriminate].
Defined.

(** C5: a datagram whose length is not 6, whatever its length (so also
    every length from 0 to the 1024 bytes [recvfrom] reads), makes
    [handle_request] log the length error and return normally; nothing is
    sent and no exception is raised. *)
Theorem wrong_length_dropped E data addr sock lang_code w :
  len data <> 6 ->
  Server.handle_request E data addr sock lang_code w
  = (Ok tt,
     Stdout (py "ERROR: Packet length incorrect for a DT_Request, dropping packet")
     :: w)
  /\ sent (Stdout (py "ERROR: Packet length incorrect for a DT_Request, dropping packet")
           :: w) = sent w.
Proof.
  intros Hlen. split; [|reflexivity]. unfold Server.handle_request.
  destruct (Z.eqb_spec (len data) 6); [lia|]. reflexivity.
Qed.

Lemma wrong_length_dropped_witness :
  Server.handle_request sample_env [0x36; 0xFB; 0x00; 0x01; 0x00] sample_addr
    3%nat 0x0001 []
  = (Ok tt,
     [Stdout (py "ERROR: Packet length incorrect for a DT_Request, dropping packet")])
  /\ sent [Stdout (py "ERROR: Packet length incorrect for a DT_Request, dropping packet")]
     = sent [].
Proof.
  apply (wrong_length_dropped sample_env [0x36; 0xFB; 0x00; 0x01; 0x00]
           sample_addr 3%nat 0x0001 []).
  vm_compute. discriminate.
Defined.

(** C7: on a request that passes validation, when the UTF-8 encoding of
    the formatted text has more than 255 bytes the handler logs the
    text-too-long line and returns normally without sending; otherwise,
    the date-time fitting its fields, the datagram it hands to [sendto]
    has 13 bytes plus the text's, its byte 12 holds the text's byte
    length, and the handler returns normally whether or not the send
    succeeds. *)
Theorem text_too_long_dropped E data addr sock lang_code lang text tb w :
  valid_request data ->
  Server.LANGUAGE_CODES lang_code = Ok lang ->
  request_text (Server.now E) lang (request_of data) = Ok text ->
  str_encode text = Ok tb ->
  let w1 := Stdout (received_line lang (request_of data) addr) :: w in
  (255 < len tb ->
   Server.handle_request E data addr sock lang_code w
   = (Ok tt, Stdout (py "ERROR: Text too long, dropping packet") :: w1)
   /\ sent (Stdout (py "ERROR: Text too long, dropping packet") :: w1) = sent w)
  /\ (len tb <= 255 -> fits (Server.now E) ->
      exists response,
        len response = 13 + len tb
        /\ py_getitem response 12 = Ok (len tb)
        /\ py_slice response 13 (len response) = tb
        /\ Server.handle_request E data addr sock lang_code w
           = (Ok tt,
              if Server.send_ok E
              then Stdout (py "Response sent") :: SendTo sock response addr :: w1
              else Stdout (py "ERROR: Sending failed, dropping packet") :: w1)).
Proof.
  intros Hvalid Hlang Htext Henc w1.
  pose proof (handle_request_valid E data addr sock lang_code lang text tb w
                Hvalid Hlang Htext Henc) as Hrun.
  cbv zeta in Hrun. fold w1 in Hrun. split.
  - intros Hlong. rewrite Hrun.
    destruct (Z.ltb_spec 255 (len tb)); [|lia]. split; reflexivity.
  - intros Hshort Hfit. rewrite Hrun.
    destruct (Z.ltb_spec 255 (len tb)); [lia|].
    assert (Hcode : 0 <= lang_code < 65536).
    { revert Hlang. unfold Server.LANGUAGE_CODES. zbool; done. }
    rewrite fill_packet_fields_layout;
      [|unfold len; rewrite length_replicate; lia|done|done|done].
    exists (response_layout lang_code (Server.now E) tb).
    split; [apply layout_len|]. split; [apply layout_length|].
    split; [by rewrite layout_len, layout_text|].
    by destruct (Server.send_ok E).
Qed.

Lemma text_too_long_dropped_witness :
  exists response,
    len response = 13 + 25
    /\ py_getitem response 12 = Ok 25
    /\ Server.handle_request sample_env time_request sample_addr 3%nat 0x0001 []
       = (Ok tt,
          [Stdout (py "Response sent"); SendTo 3%nat response sample_addr;
           Stdout (py "English received time request from 127.0.0.1")]).
Proof.
  destruct (text_too_long_dropped sample_env time_request sample_addr 3%nat
              0x0001 English (py "The current time is 14:07")
              (utf8_bytes (py "The current time is 14:07")) [])
    as [_ Hshort].
  - unfold valid_request. repeat split; try reflexivity. right. reflexivity.
  - reflexivity.
  - vm_compute. reflexivity.
  - vm_compute. reflexivity.
  - destruct Hshort as (response & Hlen & Hbyte & _ & Hrun).
    + vm_compute. discriminate.
    + unfold fits. simpl. lia.
    + exists response. repeat split; assumption.
Defined.

(** ** The formatted text always fits *)

Lemma utf8_bytes_app a b : utf8_bytes (a ++ b) = utf8_bytes a ++ utf8_bytes b.
Proof. unfold utf8_bytes. by rewrite map_app, concat_app. Qed.

Lemma ulen_app a b : ulen (a ++ b) = ulen a + ulen b.
Proof. unfold ulen, len. rewrite utf8_bytes_app, length_app. lia. Qed.

Lemma ulen_cons_ascii c s : is_ascii c = true -> ulen (c :: s) = 1 + ulen s.
Proof.
  unfold is_ascii. intros Hc. change (c :: s) with ([c] ++ s).
  rewrite ulen_app. f_equal. unfold ulen, utf8_bytes, utf8_encode_cp.
  cbn [map concat]. revert Hc. zbool; done.
Qed.

Lemma ulen_ascii s : forallb is_ascii s = true -> ulen s = len s.
Proof.
  induction s as [|c s IH]; [done|]. cbn [forallb].
  intros [Hc Hs]%andb_prop. rewrite ulen_cons_ascii by done.
  rewrite IH by done. unfold len. cbn [length]. lia.
Qed.

Lemma ascii_scalar s : forallb is_ascii s = true -> forallb is_scalar s = true.
Proof.
  induction s as [|c s IH]; [done|]. cbn [forallb].
  intros [Hc Hs]%andb_prop. rewrite IH by done.
  revert Hc. unfold is_ascii, is_scalar. zbool; done.
Qed.

Lemma str_encode_ok s :
  forallb is_scalar s = true -> str_encode s = Ok (utf8_bytes s).
Proof. intros Hs. unfold str_encode. by rewrite Hs. Qed.

Lemma digits_fuel_shape fuel : forall n acc,
  exists ds, digits_fuel fuel n acc = ds ++ acc
             /\ forallb is_ascii ds = true
             /\ (length ds <= S fuel)%nat.
Proof.
  assert (Hd : forall n, is_ascii (48 + n mod 10) = true).
  { intros n. pose proof (Z.mod_pos_bound n 10). unfold is_ascii. zbool; done. }
  induction fuel as [|fuel IH]; intros n acc; cbn [digits_fuel].
  - exists [48 + n mod 10]. cbn [forallb length app]. rewrite Hd. split_and!; done || lia.
  - destruct (n <? 10).
    + exists [48 + n mod 10]. cbn [forallb length app]. rewrite Hd.
      split_and!; done || lia.
    + destruct (IH (n / 10) ((48 + n mod 10) :: acc)) as (ds & -> & Hds & Hlen).
      exists (ds ++ [48 + n mod 10]). rewrite <- app_assoc.
      split; [done|]. rewrite forallb_app, Hds, length_app. cbn [forallb length].
      rewrite Hd. split; [done|lia].
Qed.

(** The digits are those of the number: the fuel never runs out. *)
Lemma decimal_value_snoc ds d :
  decimal_value (ds ++ [d]) = decimal_value ds * 10 + (d - 48).
Proof. unfold decimal_value. by rewrite fold_left_app. Qed.

Lemma digits_fuel_value fuel : forall n acc,
  0 <= n < 10 ^ Z.of_nat (S fuel) ->
  exists ds, digits_fuel fuel n acc = ds ++ acc /\ decimal_value ds = n.
Proof.
  induction fuel as [|fuel IH]; intros n acc Hn; cbn [digits_fuel].
  - exists [48 + n mod 10]. split; [done|].
    change (10 ^ Z.of_nat 1) with 10 in Hn. unfold decimal_value. cbn [fold_left].
    rewrite Z.mod_small by lia. lia.
  - destruct (Z.ltb_spec n 10).
    + exists [48 + n mod 10]. split; [done|]. unfold decimal_value.
      cbn [fold_left]. rewrite Z.mod_small by lia. lia.
    + destruct (IH (n / 10) ((48 + n mod 10) :: acc)) as (ds & -> & Hds).
      { split; [apply Z.div_pos; lia|].
        apply Z.div_lt_upper_bound; [lia|].
        replace (Z.of_nat (S (S fuel))) with (Z.succ (Z.of_nat (S fuel))) in Hn
          by lia.
        rewrite Z.pow_succ_r in Hn by lia. lia. }
      exists (ds ++ [48 + n mod 10]). rewrite <- app_assoc. split; [done|].
      rewrite decimal_value_snoc, Hds. pose proof (Z.div_mod n 10). lia.
Qed.

Lemma digits_value n : 0 <= n -> decimal_value (digits n) = n.
Proof.
  intros Hn. unfold digits.
  destruct (digits_fuel_value (Z.to_nat (Z.log2 n)) n []) as (ds & -> & Hds);
    [|by rewrite app_nil_r].
  split; [done|].
  destruct (Z.eq_dec n 0) as [-> | Hpos]; [done|].
  pose proof (Z.log2_spec n) as [_ Hlt]; [lia|].
  pose proof (Z.log2_nonneg n).
  replace (Z.of_nat (S (Z.to_nat (Z.log2 n)))) with (Z.succ (Z.log2 n)) by lia.
  eapply Z.lt_le_trans; [exact Hlt|].
  apply Z.pow_le_mono_l. lia.
Qed.

Lemma str_of_int_value n : 0 <= n -> decimal_value (str_of_int n) = n.
Proof.
  intros Hn. unfold str_of_int. destruct (Z.ltb_spec n 0); [lia|].
  by apply digits_value.
Qed.

(** Below 2^14, which covers every field of a date, a number has at most
    fourteen digits in this count, all of them ASCII. *)
Lemma digits_small n :
  0 <= n < 16384 ->
  forallb is_ascii (digits n) = true /\ (length (digits n) <= 14)%nat.
Proof.
  intros Hn. unfold digits.
  destruct (digits_fuel_shape (Z.to_nat (Z.log2 n)) n []) as (ds & -> & Hds & Hl).
  rewrite app_nil_r. split; [done|].
  assert (Z.log2 n < 14); [|lia].
  destruct (Z.eq_dec n 0) as [->|]; [done|].
  apply Z.log2_lt_pow2; lia.
Qed.

Lemma str_of_int_small n :
  0 <= n < 16384 ->
  forallb is_ascii (str_of_int n) = true /\ 0 <= ulen (str_of_int n) <= 14.
Proof.
  intros Hn. unfold str_of_int. destruct (Z.ltb_spec n 0); [lia|].
  destruct (digits_small n Hn) as [Ha Hl]. split; [done|].
  rewrite ulen_ascii by done. unfold len. lia.
Qed.

Lemma fmt02_small n :
  0 <= n < 16384 ->
  forallb is_ascii (fmt02 n) = true /\ 0 <= ulen (fmt02 n) <= 15.
Proof.
  intros Hn. unfold fmt02. destruct (Z.ltb_spec n 0); [lia|].
  destruct (digits_small n Hn) as [Ha Hl].
  destruct (length (digits n) <? 2)%nat.
  - split; [cbn [forallb]; by rewrite Ha|].
    rewrite ulen_cons_ascii by done. rewrite ulen_ascii by done.
    unfold len. lia.
  - split; [done|]. rewrite ulen_ascii by done. unfold len. lia.
Qed.

Lemma py_getitem_in_range {A} (l : list A) i :
  0 <= i < len l -> exists x, py_getitem l i = Ok x /\ x ∈ l.
Proof.
  intros Hi. unfold len in Hi.
  destruct (lookup_lt_is_Some_2 l (Z.to_nat i)) as [x Hx]; [lia|].
  exists x. split; [apply py_getitem_nonneg; [lia|done]|].
  by eapply list_elem_of_lookup_2.
Qed.

Lemma month_names_ok lang : forallb month_name_ok (Server.MONTHS lang) = true.
Proof. destruct lang; vm_compute; reflexivity. Qed.

Lemma month_name dt lang :
  1 <= month dt <= 12 ->
  exists m, py_getitem (Server.MONTHS lang) (month dt - 1) = Ok m
            /\ forallb is_scalar m = true /\ 0 <= ulen m <= 17.
Proof.
  intros Hm.
  destruct (py_getitem_in_range (Server.MONTHS lang) (month dt - 1))
    as (m & Hget & Hin).
  { assert (len (Server.MONTHS lang) = 12) by (by destruct lang). lia. }
  exists m. split; [done|].
  pose proof (month_names_ok lang) as Hall.
  rewrite forallb_forall in Hall.
  apply list_elem_of_In, Hall in Hin. unfold month_name_ok in Hin.
  apply andb_prop in Hin as [Hs Hl]. split; [done|].
  apply Z.leb_le in Hl. unfold ulen, len in *. lia.
Qed.

(** Closed pieces of text are measured by evaluation. *)
Ltac closed_text :=
  repeat match goal with
  | |- context [forallb is_scalar (py ?s)] =>
    let b := eval vm_compute in (forallb is_scalar (py s)) in
    change (forallb is_scalar (py s)) with b
  | |- context [ulen (py ?s)] =>
    let n := eval vm_compute in (ulen (py s)) in
    change (ulen (py s)) with n
  end.

Lemma request_text_fits dt lang request_type :
  datetime_ok dt ->
  exists text, request_text dt lang request_type = Ok text
               /\ forallb is_scalar text = true /\ ulen text <= 255.
Proof.
  intros (Hy & Hmo & Hd & Hh & Hmi). unfold request_text.
  destruct (request_type =? 1).
  - destruct (month_name dt lang Hmo) as (m & Hget & Hms & Hml).
    destruct (str_of_int_small (day dt)) as [Hda Hdl]; [lia|].
    destruct (str_of_int_small (year dt)) as [Hya Hyl]; [lia|].
    apply ascii_scalar in Hda, Hya.
    unfold Server.format_date. rewrite Hget. cbn [rbind].
    destruct lang; (eexists; split; [reflexivity|]);
      rewrite !forallb_app, !ulen_app, Hms, Hda, Hya; closed_text;
      (split; [reflexivity|lia]).
  - destruct (fmt02_small (hour dt)) as [Hha Hhl]; [lia|].
    destruct (fmt02_small (minute dt)) as [Hma Hml]; [lia|].
    apply ascii_scalar in Hha, Hma.
    unfold Server.format_time.
    destruct lang; (eexists; split; [reflexivity|]);
      rewrite !forallb_app, !ulen_app, Hha, Hma; closed_text;
      (split; [reflexivity|lia]).
Qed.

(** ** One reply per valid request, in the socket's language *)

Lemma datetime_ok_fits dt : datetime_ok dt -> fits dt.
Proof. unfold datetime_ok, fits. lia. Qed.

Lemma language_code_range lang_code lang :
  Server.LANGUAGE_CODES lang_code = Ok lang -> 0 <= lang_code < 65536.
Proof. unfold Server.LANGUAGE_CODES. zbool; done. Qed.

Lemma handle_request_reply E data addr sock lang_code lang w :
  valid_request data ->
  Server.LANGUAGE_CODES lang_code = Ok lang ->
  datetime_ok (Server.now E) ->
  exists text tb,
    request_text (Server.now E) lang (request_of data) = Ok text
    /\ str_encode text = Ok tb
    /\ len tb <= 255
    /\ Server.handle_request E data addr sock lang_code w
       = (Ok tt,
          let w1 := Stdout (received_line lang (request_of data) addr) :: w in
          if Server.send_ok E
          then Stdout (py "Response sent")
               :: SendTo sock (response_layout lang_code (Server.now E) tb) addr
               :: w1
          else Stdout (py "ERROR: Sending failed, dropping packet") :: w1).
Proof.
  intros Hvalid Hlang Hdt.
  destruct (request_text_fits (Server.now E) lang (request_of data) Hdt)
    as (text & Htext & Hs & Hl).
  exists text, (utf8_bytes text). split; [done|].
  split; [by apply str_encode_ok|]. split; [done|].
  rewrite (handle_request_valid E data addr sock lang_code lang text
             (utf8_bytes text)); [|done|done|done|by apply str_encode_ok].
  cbv zeta. fold (ulen text). destruct (Z.ltb_spec 255 (ulen text)); [lia|].
  rewrite fill_packet_fields_layout;
    [|unfold len; rewrite length_replicate; unfold ulen, len in *; lia
     |by eapply language_code_range|by apply datetime_ok_fits|done].
  by destruct (Server.send_ok E).
Qed.

(** The dispatch of the loop body: the socket at position [i] of the list
    is served with the language code [i + 1]. *)
Lemma service_dispatch s0 s1 s2 i a data addr w :
  NoDup [s0; s1; s2] ->
  [s0; s1; s2] !! i = Some (Server.a_sock a) ->
  Server.a_recv a = Ok (data, addr) ->
  Server.service [s0; s1; s2] a w =
    match Server.handle_request (Server.a_env a) data addr (Server.a_sock a)
            (Z.of_nat i + 1) w with
    | (Ok _, w') => (Ok Server.Next, w')
    | (Raise e, w') =>
      (Ok Server.Next,
       Stdout (match e with
              | SocketTimeout => py "ERROR: Receiving timed out, dropping packet"
              | _ => py "ERROR: Receiving failed, dropping packet"
              end) :: w')
    end.
Proof.
  intros Hnd Hi Hrecv.
  apply NoDup_cons in Hnd as [Hn0 Hnd]. apply NoDup_cons in Hnd as [Hn1 _].
  assert (H01 : s1 <> s0) by (intros ->; apply Hn0; left).
  assert (H02 : s2 <> s0) by (intros ->; apply Hn0; right; left).
  assert (H12 : s2 <> s1) by (intros ->; apply Hn1; left).
  unfold Server.service, catch. unfold bind at 1. unfold lift at 1.
  rewrite Hrecv. cbn [fst snd]. unfold bind at 1. unfold lift at 1.
  change (py_getitem [s0; s1; s2] 0) with (Ok (A:=handle) s0).
  destruct i as [|[|[|i]]]; cbn in Hi; [| | |done]; injection Hi as Hi.
  - rewrite <- Hi, Nat.eqb_refl. unfold bind, ret.
    change (Z.of_nat 0 + 1) with 1.
    destruct (Server.handle_request _ _ _ _ _ _) as [[?|e] w']; [done|].
    destruct e; done.
  - rewrite <- Hi.
    rewrite (proj2 (Nat.eqb_neq s1 s0)) by done.
    cbv beta iota. unfold bind at 1. unfold lift at 1.
    change (py_getitem [s0; s1; s2] 1) with (Ok (A:=handle) s1). cbv beta iota.
    rewrite Nat.eqb_refl. unfold bind, ret.
    change (Z.of_nat 1 + 1) with 2.
    destruct (Server.handle_request _ _ _ _ _ _) as [[?|e] w']; [done|].
    destruct e; done.
  - rewrite <- Hi.
    rewrite (proj2 (Nat.eqb_neq s2 s0)) by done.
    cbv beta iota. unfold bind at 1. unfold lift at 1.
    change (py_getitem [s0; s1; s2] 1) with (Ok (A:=handle) s1). cbv beta iota.
    rewrite (proj2 (Nat.eqb_neq s2 s1)) by done.
    cbv beta iota. unfold bind at 1. unfold lift at 1.
    change (py_getitem [s0; s1; s2] 2) with (Ok (A:=handle) s2). cbv beta iota.
    rewrite Nat.eqb_refl. unfold bind, ret.
    change (Z.of_nat 2 + 1) with 3.
    destruct (Server.handle_request _ _ _ _ _ _) as [[?|e] w']; [done|].
    destruct e; done.
Qed.

(** C6: with the three sockets of [main] in their order (English, Māori,
    German; codes 1, 2, 3), a valid 6-byte request arriving on the socket
    at position [i] is answered, when the clock gives a date, with one
    datagram whose MagicNo is 0x36FB, whose PacketType is 0x0002, whose
    LangCode is that socket's code, and whose text is the UTF-8 encoding
    of what that language's date or time formatter gives for the clock's
    reading; the datagram goes back on the same socket to the sender. *)
Theorem reply_in_socket_language s0 s1 s2 i lang_code lang a data addr w :
  NoDup [s0; s1; s2] ->
  [s0; s1; s2] !! i = Some (Server.a_sock a) ->
  [(0x0001, English); (0x0002, Maori); (0x0003, German)] !! i
  = Some (lang_code, lang) ->
  Server.a_recv a = Ok (data, addr) ->
  valid_request data ->
  datetime_ok (Server.now (Server.a_env a)) ->
  exists text tb response,
    request_text (Server.now (Server.a_env a)) lang (request_of data) = Ok text
    /\ str_encode text = Ok tb
    /\ magic_of response = 0x36FB
    /\ type_of response = 0x0002
    /\ int_from_bytes (py_slice response 4 6) = lang_code
    /\ py_slice response 13 (len response) = tb
    /\ Server.service [s0; s1; s2] a w
       = (Ok Server.Next,
          let w1 := Stdout (received_line lang (request_of data) addr) :: w in
          if Server.send_ok (Server.a_env a)
          then Stdout (py "Response sent")
               :: SendTo (Server.a_sock a) response addr :: w1
          else Stdout (py "ERROR: Sending failed, dropping packet") :: w1).
Proof.
  intros Hnd Hsock Hlang Hrecv Hvalid Hdt.
  assert (Hcode : lang_code = Z.of_nat i + 1
                  /\ Server.LANGUAGE_CODES lang_code = Ok lang).
  { destruct i as [|[|[|i]]]; cbn in Hlang; [| | |done];
      injection Hlang as <- <-; done. }
  destruct Hcode as [Hcode Hdict].
  destruct (handle_request_reply (Server.a_env a) data addr (Server.a_sock a)
              lang_code lang w Hvalid Hdict Hdt)
    as (text & tb & Htext & Henc & Hlen & Hrun).
  exists text, tb, (response_layout lang_code (Server.now (Server.a_env a)) tb).
  split; [done|]. split; [done|].
  split; [apply layout_magic|]. split; [apply layout_type|].
  split; [apply layout_lang|].
  split; [by rewrite layout_len, layout_text|].
  rewrite (service_dispatch s0 s1 s2 i a data addr w Hnd Hsock Hrecv).
  by rewrite <- Hcode, Hrun.
Qed.

Lemma reply_in_socket_language_witness :
  exists response,
    int_from_bytes (py_slice response 4 6) = 0x0002
    /\ py_slice response 13 (len response)
       = utf8_bytes (py "Ko te rā o tēnei rā ko Haratua 17, 2024")
    /\ Server.service [3; 4; 5]%nat
         (Server.mk_arrival 4%nat (Ok (date_request, sample_addr)) sample_env) []
       = (Ok Server.Next,
          [Stdout (py "Response sent"); SendTo 4%nat response sample_addr;
           Stdout (py "Māori received date request from 127.0.0.1")]).
Proof.
  destruct (reply_in_socket_language 3%nat 4%nat 5%nat 1%nat 0x0002 Maori
              (Server.mk_arrival 4%nat (Ok (date_request, sample_addr))
                 sample_env) date_request sample_addr [])
    as (text & tb & response & Htext & Henc & _ & _ & Hlang & Hbytes & Hrun).
  - apply (bool_decide_unpack _). vm_compute. reflexivity.
  - reflexivity.
  - reflexivity.
  - reflexivity.
  - unfold valid_request. repeat split; try reflexivity. left. reflexivity.
  - unfold datetime_ok. simpl. lia.
  - exists response. split; [exact Hlang|]. split; [|exact Hrun].
    rewrite Hbytes. vm_compute in Htext. injection Htext as <-.
    vm_compute in Henc. injection Henc as <-. vm_compute. reflexivity.
Defined.

(** ** The loop survives every datagram *)

Lemma service_returns sockets a w :
  exists c w', Server.service sockets a w = (Ok c, w').
Proof.
  unfold Server.service, catch.
  match goal with |- context [bind ?m ?k w] => destruct (bind m k w) as [[c|e] w'] end.
  - by exists c, w'.
  - destruct e; eexists _, _; reflexivity.
Qed.

Lemma for_ready_returns sockets ready : forall w,
  exists w', Server.for_ready sockets ready w = (Ok tt, w').
Proof.
  induction ready as [|a ready IH]; intros w; cbn [Server.for_ready].
  - by exists w.
  - unfold bind. destruct (service_returns sockets a w) as (c & w' & ->).
    destruct c; [apply IH|by exists w'].
Qed.

Lemma serve_returns sockets wakeups : forall w,
  exists w', Server.serve sockets wakeups w = (Ok tt, w').
Proof.
  induction wakeups as [|ready more IH]; intros w; cbn [Server.serve].
  - by exists w.
  - unfold bind at 1. unfold print, emit. unfold bind at 1.
    destruct (for_ready_returns sockets ready
                (Stdout (py "Waiting for requests...") :: w)) as (w' & ->).
    apply IH.
Qed.

(** * The port configuration *)

Local Set Warnings "-clear-no-such-hyp".

Lemma size_list_to_set_le (l : list Z) :
  (size (list_to_set l : gset Z) <= length l)%nat.
Proof.
  induction l as [|x l IH]; cbn [list_to_set length].
  - by rewrite size_empty.
  - rewrite size_union_alt, size_singleton.
    assert (size (list_to_set l ∖ {[x]} : gset Z) <= size (list_to_set l : gset Z))%nat
      by (apply subseteq_size; set_solver).
    lia.
Qed.

Lemma three_distinct (p1 p2 p3 : Z) :
  size (list_to_set [p1; p2; p3] : gset Z) = 3%nat
  <-> p1 <> p2 /\ p1 <> p3 /\ p2 <> p3.
Proof.
  split.
  - intros Hsize.
    assert (Hdup : forall a b : Z,
              (size (list_to_set [a; a; b] : gset Z) <= 2)%nat
              /\ (size (list_to_set [a; b; a] : gset Z) <= 2)%nat
              /\ (size (list_to_set [b; a; a] : gset Z) <= 2)%nat).
    { intros a b. pose proof (size_list_to_set_le [a; b]) as Hle.
      cbn [length] in Hle.
      replace (list_to_set [a; a; b] : gset Z) with (list_to_set [a; b] : gset Z)
        by (cbn [list_to_set]; set_solver).
      replace (list_to_set [a; b; a] : gset Z) with (list_to_set [a; b] : gset Z)
        by (cbn [list_to_set]; set_solver).
      replace (list_to_set [b; a; a] : gset Z) with (list_to_set [a; b] : gset Z)
        by (cbn [list_to_set]; set_solver).
      done. }
    split_and!; intros ->.
    + destruct (Hdup p2 p3) as (? & _). lia.
    + destruct (Hdup p3 p2) as (_ & ? & _). lia.
    + destruct (Hdup p3 p1) as (_ & _ & ?). lia.
  - intros (H12 & H13 & H23).
    rewrite size_list_to_set; [done|].
    repeat (apply NoDup_cons; split); [set_solver..|apply NoDup_nil_2].
Qed.

Section Ports.

Variable int_of_str : pystr -> option Z.

Lemma for_each_prints {A} (body : A -> M unit) (xs : list A) :
  (forall x w, exists w',
      body x w = (Ok tt, w') /\ socket_events w' = socket_events w) ->
  forall w, exists w',
    Server.for_each xs body w = (Ok tt, w')
    /\ socket_events w' = socket_events w.
Proof.
  intros Hbody. induction xs as [|x xs IH]; intros w; cbn [Server.for_each].
  - by exists w.
  - unfold bind. destruct (Hbody x w) as (w1 & -> & Hw1).
    destruct (IH w1) as (w' & -> & Hw'). exists w'. split; [done|congruence].
Qed.

Lemma get_valid_portnum_cases argv w :
  exists r w',
    Server.get_valid_portnum int_of_str argv w = (r, w')
    /\ socket_events w' = socket_events w
    /\ ((exists ports, r = Ok (Some ports) /\ w' = w /\ ports_accepted int_of_str argv ports)
        \/ (refused r /\ forall ports, ~ ports_accepted int_of_str argv ports)).
Proof.
  unfold Server.get_valid_portnum.
  destruct (Z.eqb_spec (len argv) 4) as [Hlen|Hlen]; cbn [negb].
  2:{ eexists _, _. split; [reflexivity|]. split; [done|]. right.
      split; [by right|]. intros ports (? & ? & ? & ? & ? & ? & ? & -> & _).
      by apply Hlen. }
  destruct argv as [|prog [|a1 [|a2 [|a3 [|]]]]]; try done.
  2:{ unfold len in Hlen. cbn [length] in Hlen. lia. }
  change (py_slice [prog; a1; a2; a3] 1 (len [prog; a1; a2; a3]))
    with [a1; a2; a3].
  unfold bind at 1. cbn [Server.parse_args app].
  assert (Hbad : forall a line,
    (a = a1 \/ a = a2 \/ a = a3) -> int_of_str a = None ->
    exists r w',
      (Ok (A:=option (list Z)) None, Stdout line :: w) = (r, w')
      /\ socket_events w' = socket_events w
      /\ ((exists ports, r = Ok (Some ports) /\ w' = w
                         /\ ports_accepted int_of_str [prog; a1; a2; a3] ports)
          \/ (refused r /\ forall ports, ~ ports_accepted int_of_str [prog; a1; a2; a3] ports))).
  { intros a line Ha Hnone. eexists _, _. split; [reflexivity|].
    split; [done|]. right. split; [by left|].
    intros ports (? & ? & ? & ? & ? & ? & ? & [= <- <- <- <-] & ? & ? & ? & _).
    destruct Ha as [-> | [-> | ->]]; congruence. }
  destruct (int_of_str a1) as [p1|] eqn:H1;
    [|unfold bind, print, emit, ret; apply (Hbad a1); [tauto|done]].
  cbn [app].
  destruct (int_of_str a2) as [p2|] eqn:H2;
    [|unfold bind, print, emit, ret; apply (Hbad a2); [tauto|done]].
  cbn [app].
  destruct (int_of_str a3) as [p3|] eqn:H3;
    [|unfold bind, print, emit, ret; apply (Hbad a3); [tauto|done]].
  clear Hbad. unfold ret at 1. cbv beta iota.
  assert (Hacc : forall ports,
    ports_accepted int_of_str [prog; a1; a2; a3] ports ->
    ports = [p1; p2; p3] /\ p1 <> p2 /\ p1 <> p3 /\ p2 <> p3
    /\ 1024 <= p1 <= 64000 /\ 1024 <= p2 <= 64000 /\ 1024 <= p3 <= 64000).
  { intros ports (? & ? & ? & ? & q1 & q2 & q3 & [= <- <- <- <-]
                  & E1 & E2 & E3 & -> & Hrest).
    rewrite H1 in E1. rewrite H2 in E2. rewrite H3 in E3.
    injection E1 as <-. injection E2 as <-. injection E3 as <-. done. }
  destruct (Nat.eqb_spec (size (list_to_set [p1; p2; p3] : gset Z)) 3)
    as [Hsize|Hsize]; cbn [negb].
  2:{ eexists _, _. split; [reflexivity|]. split; [done|]. right.
      split; [by left|]. intros ports Hp. apply Hacc in Hp.
      apply Hsize, three_distinct. tauto. }
  apply three_distinct in Hsize.
  destruct (existsb (fun p => p <=? 0) [p1; p2; p3]) eqn:Hpos.
  { unfold bind at 1.
    match goal with |- context [Server.for_each ?xs ?body w] =>
      destruct (for_each_prints body xs) with (w := w) as (w' & -> & Hw')
    end.
    { intros p w0. destruct (p <=? 0); eexists; split; reflexivity. }
    eexists _, _. split; [reflexivity|]. split; [done|]. right.
    split; [by left|]. intros ports Hp. apply Hacc in Hp.
    cbn [existsb] in Hpos. revert Hpos. zbool; done. }
  destruct (forallb Server.in_range [p1; p2; p3]) eqn:Hrange; cbn [negb].
  2:{ unfold bind at 1.
      match goal with |- context [Server.for_each ?xs ?body w] =>
        destruct (for_each_prints body xs) with (w := w) as (w' & -> & Hw')
      end.
      { intros p w0. destruct (Server.in_range p); eexists; split; reflexivity. }
      eexists _, _. split; [reflexivity|]. split; [done|]. right.
      split; [by left|]. intros ports Hp. apply Hacc in Hp.
      cbn [forallb] in Hrange. revert Hrange. unfold Server.in_range.
      zbool; done. }
  eexists _, _. split; [reflexivity|]. split; [done|]. left.
  exists [p1; p2; p3]. split; [done|]. split; [done|].
  exists prog, a1, a2, a3, p1, p2, p3.
  cbn [forallb] in Hrange. unfold Server.in_range in Hrange.
  split_and!; try done; try tauto; revert Hrange; zbool; done.
Qed.

(** C8: [get_valid_portnum] returns the three ports exactly when the
    command line has three arguments that parse as integers, are pairwise
    distinct and lie in [1024, 64000]; in every other case [main] exits
    with status 1 having created and bound no socket. *)
Theorem port_configuration_check argv binds wakeups w :
  (forall ports,
     fst (Server.get_valid_portnum int_of_str argv w) = Ok (Some ports)
     <-> ports_accepted int_of_str argv ports)
  /\ ((forall ports, ~ ports_accepted int_of_str argv ports) ->
      exists w',
        Server.main int_of_str argv binds wakeups w
        = (Raise (SystemExit 1), w')
        /\ socket_events w' = socket_events w).
Proof.
  destruct (get_valid_portnum_cases argv w) as (r & w' & Hrun & Hw' & Hcases).
  split.
  - intros ports. rewrite Hrun. cbn [fst].
    destruct Hcases as [(ports' & -> & _ & Hacc)|[Href Hnone]].
    + split.
      * by intros [= <-].
      * intros Hacc'. do 2 f_equal.
        destruct Hacc as (? & ? & ? & ? & ? & ? & ? & -> & E1 & E2 & E3 & -> & _).
        destruct Hacc' as (? & ? & ? & ? & ? & ? & ? & [= <- <- <- <-]
                           & E1' & E2' & E3' & -> & _).
        congruence.
    + split.
      * intros ->. destruct Href; done.
      * intros Hacc. by destruct (Hnone ports).
  - intros Hnone. unfold Server.main, bind. rewrite Hrun.
    destruct Hcases as [(ports & _ & _ & Hacc)|[[-> | ->] _]].
    + by destruct (Hnone ports).
    + by exists w'.
    + by exists w'.
Qed.

End Ports.

(** * The requester *)

(** C9: for both request kinds, the packet that the client's
    [send_request] constructs for the request type obtained from the
    command line has exactly 6 bytes, MagicNo 0x36FB, PacketType 0x0001 and
    the request type 0x0001 or 0x0002, so the server's length check and
    [validate_field] both accept it, logging nothing. *)
Theorem client_request_accepted argv request_type w0 w1 w :
  Client.validate_and_get_request_type argv w0 = (Ok request_type, w1) ->
  exists request,
    Client.build_request request_type = Ok request
    /\ valid_request request
    /\ request_of request = request_type
    /\ Server.validate_field (magic_of request) (type_of request)
         (request_of request) w = (Ok true, w).
Proof.
  intros Hkind.
  assert (Hrt : request_type = 0x0001 \/ request_type = 0x0002).
  { revert Hkind. unfold Client.validate_and_get_request_type.
    destruct (negb (len argv =? 4)); [done|].
    unfold bind, lift. destruct (py_getitem argv 1) as [kind|]; [|done].
    destruct (bool_decide (kind = py "date")); [intros [= <- _]; by left|].
    destruct (bool_decide (kind = py "time")); [intros [= <- _]; by right|].
    done. }
  assert (Hvalid : exists request,
            Client.build_request request_type = Ok request
            /\ valid_request request /\ request_of request = request_type).
  { destruct Hrt as [-> | ->]; eexists; (split; [reflexivity|]);
      (split; [|reflexivity]); unfold valid_request; split_and!;
      try reflexivity; by (left + right). }
  destruct Hvalid as (request & Hbuild & Hvalid & Hreq). exists request.
  split_and!; try done.
  destruct Hvalid as (_ & Hm & Ht & Hr). by apply validate_field_true.
Qed.

Lemma client_request_accepted_witness :
  exists request,
    Client.build_request 0x0002 = Ok request
    /\ valid_request request
    /\ Server.validate_field (magic_of request) (type_of request)
         (request_of request) [] = (Ok true, []).
Proof.
  destruct (client_request_accepted
              [py "client.py"; py "time"; py "localhost"; py "30001"]
              0x0002 [] [] [])
    as (request & Hbuild & Hvalid & _ & Hcheck).
  - vm_compute. reflexivity.
  - exists request. repeat split; assumption || apply Hvalid.
Defined.

(** ** Decoding and validating a response *)

Lemma py_getitem_some {A} (l : list A) i :
  0 <= i < len l -> exists x, py_getitem l i = Ok x.
Proof.
  intros Hi. destruct (py_getitem_in_range l i Hi) as (x & Hx & _). eauto.
Qed.

(** On thirteen bytes or more only the text can make the decoding fail. *)
Lemma extract_response_data_long response sock w :
  13 <= len response ->
  exists month day hour minute text_length,
    py_getitem response 8 = Ok month /\ py_getitem response 9 = Ok day
    /\ py_getitem response 10 = Ok hour /\ py_getitem response 11 = Ok minute
    /\ py_getitem response 12 = Ok text_length
    /\ Client.extract_response_data response sock w =
       match utf8_decode (py_slice response 13 (13 + text_length)) with
       | Some text =>
         (Ok (Client.mk_fields
                (int_from_bytes (py_slice response 0 2))
                (int_from_bytes (py_slice response 2 4))
                (int_from_bytes (py_slice response 4 6))
                text text_length day month
                (int_from_bytes (py_slice response 6 8)) hour minute), w)
       | None =>
         (Raise (SystemExit 1), Close sock :: Stdout Client.invalid_text :: w)
       end.
Proof.
  intros Hlen.
  destruct (py_getitem_some response 8) as (month & Hmo); [lia|].
  destruct (py_getitem_some response 9) as (day & Hd); [lia|].
  destruct (py_getitem_some response 10) as (hour & Hh); [lia|].
  destruct (py_getitem_some response 11) as (minute & Hmi); [lia|].
  destruct (py_getitem_some response 12) as (text_length & Htl); [lia|].
  exists month, day, hour, minute, text_length. split_and!; try done.
  unfold Client.extract_response_data, catch, lift.
  rewrite Hmo, Hd, Hh, Hmi, Htl. cbn [rbind]. unfold bytes_decode.
  destruct (utf8_decode _); reflexivity.
Qed.

(** C10: the text is decoded before any structural check: on a response of
    at least 13 bytes whose text slice (bytes 13 to 13+Length, cut at the
    end of the packet) is not valid UTF-8, [process_response] prints the
    invalid-text error, closes the socket and exits with status 1, whatever
    the magic number, packet type, language code and declared length are. *)
Theorem invalid_text_reported_first sock response text_length w :
  13 <= len response ->
  py_getitem response 12 = Ok text_length ->
  utf8_decode (py_slice response 13 (13 + text_length)) = None ->
  Client.process_response sock response w
  = (Raise (SystemExit 1), Close sock :: Stdout Client.invalid_text :: w).
Proof.
  intros Hlen Htl Hbad.
  destruct (extract_response_data_long response sock w Hlen)
    as (mo & d & h & mi & tl & _ & _ & _ & _ & Htl' & Hrun).
  rewrite Htl in Htl'. injection Htl' as <-. rewrite Hbad in Hrun.
  unfold Client.process_response. unfold bind at 1. by rewrite Hrun.
Qed.

Lemma invalid_text_reported_first_witness :
  Client.process_response 3%nat
    [0x00; 0x00; 0x00; 0x09; 0x00; 0x07; 0xFF; 0xFF; 0; 0; 99; 99; 5; 0xC3; 0x28]
    []
  = (Raise (SystemExit 1), [Close 3%nat; Stdout Client.invalid_text]).
Proof.
  apply (invalid_text_reported_first 3%nat
           [0x00; 0x00; 0x00; 0x09; 0x00; 0x07; 0xFF; 0xFF; 0; 0; 99; 99; 5;
            0xC3; 0x28] 5 []).
  - vm_compute. discriminate.
  - reflexivity.
  - vm_compute. reflexivity.
Defined.

Lemma error_lines_differ :
  Client.invalid_text <> Client.too_small
  /\ Client.bad_magic <> Client.too_small
  /\ Client.bad_type <> Client.too_small
  /\ Client.bad_language <> Client.too_small
  /\ Client.bad_length <> Client.too_small.
Proof. split_and!; by vm_compute. Qed.

Lemma validate_response_packet_1_error sock response text_length line w :
  structural_error response text_length = Some line ->
  Client.validate_response_packet_1 sock response (magic_of response)
    (type_of response) (int_from_bytes (py_slice response 4 6)) text_length w
  = (Raise (SystemExit 1), Close sock :: Stdout line :: w).
Proof.
  unfold structural_error, Client.validate_response_packet_1,
    Client.MAGIC_NO, Client.DT_RESPONSE.
  repeat match goal with
         | |- context [if ?b then _ else _] =>
           destruct b; [intros [= <-]; reflexivity|]
         end.
  done.
Qed.

(** C3, as the code has it: on a response of at least 13 bytes whose Length
    byte declares more text than follows offset 13, the requester exits
    with status 1 and the error it prints is never the too-small one: it is
    the invalid-text error when the bytes that are there are not valid
    UTF-8, otherwise the error of the first failing check among magic
    number, packet type and language code, and otherwise the
    length-mismatch error. *)
Theorem truncated_text_is_length_mismatch sock response text_length w :
  13 <= len response ->
  py_getitem response 12 = Ok text_length ->
  len response - 13 < text_length ->
  exists line,
    Client.process_response sock response w
    = (Raise (SystemExit 1), Close sock :: Stdout line :: w)
    /\ line <> Client.too_small
    /\ (utf8_decode (py_slice response 13 (13 + text_length)) = None ->
        line = Client.invalid_text)
    /\ (utf8_decode (py_slice response 13 (13 + text_length)) <> None ->
        structural_error response text_length = Some line)
    /\ (utf8_decode (py_slice response 13 (13 + text_length)) <> None ->
        magic_of response = 0x36FB -> type_of response = 0x0002 ->
        (int_from_bytes (py_slice response 4 6) = 0x0001
         \/ int_from_bytes (py_slice response 4 6) = 0x0002
         \/ int_from_bytes (py_slice response 4 6) = 0x0003) ->
        line = Client.bad_length).
Proof.
  intros Hlen Htl Hshort.
  destruct error_lines_differ as (Dtext & Dmagic & Dtype & Dlang & Dlen).
  destruct (extract_response_data_long response sock w Hlen)
    as (mo & d & h & mi & tl & _ & _ & _ & _ & Htl' & Hrun).
  rewrite Htl in Htl'. injection Htl' as <-.
  destruct (utf8_decode (py_slice response 13 (13 + text_length)))
    as [text|] eqn:Hdec.
  - assert (Herr : exists line,
              structural_error response text_length = Some line
              /\ line <> Client.too_small
              /\ (magic_of response = 0x36FB -> type_of response = 0x0002 ->
                  (int_from_bytes (py_slice response 4 6) = 0x0001
                   \/ int_from_bytes (py_slice response 4 6) = 0x0002
                   \/ int_from_bytes (py_slice response 4 6) = 0x0003) ->
                  line = Client.bad_length)).
    { unfold structural_error.
      destruct (Z.ltb_spec (len response) 13); [lia|].
      destruct (Z.eqb_spec (magic_of response) 0x36FB); cbn [negb];
        [|eexists; split_and!; [reflexivity|done|done]].
      destruct (Z.eqb_spec (type_of response) 0x0002); cbn [negb];
        [|eexists; split_and!; [reflexivity|done|done]].
      destruct (negb _) eqn:Hlang.
      { eexists; split_and!; [reflexivity|done|].
        intros _ _ Hl. revert Hlang.
        destruct Hl as [-> | [-> | ->]]; done. }
      destruct (Z.eqb_spec (len response) (13 + text_length)); [lia|].
      cbn [negb]. eexists; split_and!; [reflexivity|done|done]. }
    destruct Herr as (line & Herr & Hne & Hmis). exists line.
    split_and!; try done.
    unfold Client.process_response. unfold bind at 1. rewrite Hrun.
    unfold bind at 1. cbn [Client.f_magic_no Client.f_packet_type
                           Client.f_lang_code Client.f_text_length].
    pose proof (validate_response_packet_1_error sock response text_length
                  line w Herr) as Hv.
    unfold magic_of, type_of in Hv. by rewrite Hv.
  - exists Client.invalid_text. split_and!; try done.
    unfold Client.process_response. unfold bind at 1. by rewrite Hrun.
Qed.

Lemma truncated_text_is_length_mismatch_witness :
  Client.process_response 3%nat truncated_response []
  = (Raise (SystemExit 1), [Close 3%nat; Stdout Client.bad_length]).
Proof.
  destruct (truncated_text_is_length_mismatch 3%nat truncated_response 1 [])
    as (line & Hrun & _ & _ & _ & Hline).
  - vm_compute. discriminate.
  - reflexivity.
  - vm_compute. reflexivity.
  - rewrite Hrun. rewrite Hline; [reflexivity| |reflexivity|reflexivity|].
    + vm_compute. discriminate.
    + left. reflexivity.
Defined.

(** The statement that such a response is reported as too small does not
    hold: a bare header that declares one byte of text is reported with the
    length-mismatch error. *)
Lemma truncated_text_too_small_counterexample :
  ~ (forall sock response text_length w,
       13 <= len response ->
       py_getitem response 12 = Ok text_length ->
       len response - 13 < text_length ->
       Client.process_response sock response w
       = (Raise (SystemExit 1), Close sock :: Stdout Client.too_small :: w)).
Proof.
  intros Hclaim.
  specialize (Hclaim 3%nat truncated_response 1 []).
  assert (Hrun : Client.process_response 3%nat truncated_response []
                 = (Raise (SystemExit 1), [Close 3%nat; Stdout Client.bad_length]))
    by (vm_compute; reflexivity).
  rewrite Hrun in Hclaim.
  assert (Hline : Client.bad_length = Client.too_small).
  { assert (E : (Raise (SystemExit 1), [Close 3%nat; Stdout Client.bad_length])
                = (Raise (A:=unit) (SystemExit 1),
                   [Close 3%nat; Stdout Client.too_small])).
    { apply Hclaim; vm_compute; reflexivity || discriminate. }
    by injection E. }
  by apply error_lines_differ in Hline.
Qed.

(** ** The semantic pass *)

Lemma in_ranges_dec day month year hour minute :
  {in_ranges day month year hour minute}
  + {~ in_ranges day month year hour minute}.
Proof.
  unfold in_ranges.
  destruct (Z_lt_dec year 2100), (Z_le_dec 1 month), (Z_le_dec month 12),
    (Z_le_dec 1 day), (Z_le_dec day 31), (Z_le_dec 0 hour),
    (Z_le_dec hour 23), (Z_le_dec 0 minute), (Z_le_dec minute 59);
    (left; lia) || (right; lia).
Qed.

Lemma validate_response_packet_2_accepts day month year hour minute :
  in_ranges day month year hour minute -> accepts day month year hour minute.
Proof.
  intros (Hy & Hmo & Hd & Hh & Hmi) sock w.
  unfold Client.validate_response_packet_2. zbool. done.
Qed.

Lemma validate_response_packet_2_rejects day month year hour minute :
  ~ in_ranges day month year hour minute -> rejects day month year hour minute.
Proof.
  intros Hbad sock w. unfold Client.validate_response_packet_2.
  repeat match goal with
         | |- context [if ?b then _ else _] =>
           destruct b eqn:?; [eexists; reflexivity|]
         end.
  exfalso. apply Hbad. unfold in_ranges.
  repeat match goal with
         | H : negb _ = false |- _ => apply negb_false_iff, andb_prop in H as [? ?]
         end.
  lia.
Qed.

(** A response that passes the structural pass and fails the semantic one
    is not printed: the run ends with the error line and the exit. *)
Lemma process_response_rejected sock response f w :
  Client.extract_response_data response sock w = (Ok f, w) ->
  Client.validate_response_packet_1 sock response (Client.f_magic_no f)
    (Client.f_packet_type f) (Client.f_lang_code f) (Client.f_text_length f) w
  = (Ok true, w) ->
  ~ in_ranges (Client.f_day f) (Client.f_month f) (Client.f_year f)
      (Client.f_hour f) (Client.f_minute f) ->
  exists line,
    Client.process_response sock response w
    = (Raise (SystemExit 1), Close sock :: Stdout line :: w).
Proof.
  intros Hext Hv1 Hbad.
  destruct (validate_response_packet_2_rejects _ _ _ _ _ Hbad sock w)
    as (line & Hv2).
  exists line. unfold Client.process_response.
  unfold bind at 1. rewrite Hext. unfold bind at 1. rewrite Hv1.
  unfold bind at 1. unfold bind at 1. by rewrite Hv2.
Qed.

(** C4: [validate_response_packet_2] accepts exactly when Year < 2100,
    1 <= Month <= 12, 1 <= Day <= 31, 0 <= Hour <= 23 and
    0 <= Minute <= 59, and otherwise prints one error, closes the socket
    and exits with status 1, so that [process_response] prints nothing of
    the response; Year 2099, Month 1 and 12, Hour 23 and Minute 59 are
    accepted, Year 2100, Month 0 and 13, Hour 24 and Minute 60 rejected. *)
Theorem semantic_validation_boundaries :
  (forall day month year hour minute,
     (accepts day month year hour minute
      <-> in_ranges day month year hour minute)
     /\ (~ in_ranges day month year hour minute
         -> rejects day month year hour minute))
  /\ (forall sock response f w,
        Client.extract_response_data response sock w = (Ok f, w) ->
        Client.validate_response_packet_1 sock response (Client.f_magic_no f)
          (Client.f_packet_type f) (Client.f_lang_code f)
          (Client.f_text_length f) w = (Ok true, w) ->
        ~ in_ranges (Client.f_day f) (Client.f_month f) (Client.f_year f)
            (Client.f_hour f) (Client.f_minute f) ->
        exists line,
          Client.process_response sock response w
          = (Raise (SystemExit 1), Close sock :: Stdout line :: w))
  /\ (accepts 17 5 2099 14 7 /\ rejects 17 5 2100 14 7)
  /\ (accepts 17 1 2024 14 7 /\ accepts 17 12 2024 14 7
      /\ rejects 17 0 2024 14 7 /\ rejects 17 13 2024 14 7)
  /\ (accepts 17 5 2024 23 7 /\ rejects 17 5 2024 24 7)
  /\ (accepts 17 5 2024 14 59 /\ rejects 17 5 2024 14 60).
Proof.
  split.
  { intros day month year hour minute. split; [split|].
    - intros Hacc.
      destruct (in_ranges_dec day month year hour minute) as [|Hbad]; [done|].
      destruct (validate_response_packet_2_rejects _ _ _ _ _ Hbad 0%nat [])
        as (line & Hrej).
      by rewrite (Hacc 0%nat []) in Hrej.
    - apply validate_response_packet_2_accepts.
    - apply validate_response_packet_2_rejects. }
  split; [apply process_response_rejected|].
  split_and!;
    (apply validate_response_packet_2_accepts; unfold in_ranges; lia)
    || (apply validate_response_packet_2_rejects; unfold in_ranges; lia).
Qed.

(** * Further properties of the responder *)

(** ** What a handler call can send *)

Lemma sent_stdout line w : sent (Stdout line :: w) = sent w.
Proof. reflexivity. Qed.

Lemma handle_request_sent_cases E data addr sock lang_code w :
  exists r w',
    Server.handle_request E data addr sock lang_code w = (r, w')
    /\ (sent w' = sent w
        \/ exists response,
             sent w' = (sock, response, addr) :: sent w
             /\ valid_request data /\ r = Ok tt).
Proof.
  unfold Server.handle_request.
  fold (magic_of data) (type_of data) (request_of data).
  destruct (Z.eqb_spec (len data) 6) as [Hlen|Hlen]; cbn [negb];
    [|eexists _, _; split; [reflexivity|by left]].
  unfold bind at 1. unfold Server.validate_field, Server.MAGIC_NO,
    Server.DT_REQUEST.
  destruct (Z.eqb_spec (magic_of data) 0x36FB) as [Hm|Hm]; cbn [negb];
    [|eexists _, _; split; [reflexivity|by left]].
  destruct (Z.eqb_spec (type_of data) 0x0001) as [Ht|Ht]; cbn [negb];
    [|eexists _, _; split; [reflexivity|by left]].
  assert (Hreq : (request_of data =? 1) || (request_of data =? 2) = true
                 -> valid_request data).
  { intros [H1|H2]%orb_prop; unfold valid_request; split_and!; try done;
      [left|right]; by apply Z.eqb_eq. }
  destruct ((request_of data =? 1) || (request_of data =? 2)); cbn [negb];
    [|eexists _, _; split; [reflexivity|by left]].
  specialize (Hreq eq_refl). unfold ret at 1. cbv beta iota. cbn [negb].
  unfold bind at 1. unfold lift at 1.
  destruct (Server.LANGUAGE_CODES lang_code) as [lang|e];
    [|eexists _, _; split; [reflexivity|by left]].
  unfold bind at 1.
  match goal with
  | |- context [(if ?c then ?m1 else ?m2) w] =>
    assert (Htext : exists r w1, (if c then m1 else m2) w = (r, w1)
                                 /\ sent w1 = sent w)
  end.
  { destruct (request_of data =? 1).
    - unfold bind, lift, print, emit, ret.
      destruct (Server.format_date _ _); eexists _, _; split; reflexivity.
    - unfold bind, lift, print, emit, ret. eexists _, _; split; reflexivity. }
  destruct Htext as (rt & w1 & -> & Hw1). rewrite <- Hw1.
  destruct rt as [text|e]; [|eexists _, _; split; [reflexivity|by left]].
  unfold bind at 1. unfold lift at 1.
  destruct (str_encode text) as [tb|e];
    [|eexists _, _; split; [reflexivity|by left]].
  destruct (255 <? len tb); [eexists _, _; split; [reflexivity|by left]|].
  unfold bind at 1. unfold lift at 1.
  destruct (bytearray _) as [arr|e];
    [|eexists _, _; split; [reflexivity|by left]].
  unfold bind at 1. unfold lift at 1.
  destruct (Server.fill_packet_fields _ _ _ _) as [response|e];
    [|eexists _, _; split; [reflexivity|by left]].
  unfold catch, bind, sendto, print, emit, raise.
  destruct (Server.send_ok E); eexists _, _; (split; [reflexivity|]);
    [right; by exists response|by left].
Qed.

(** Whatever arrives, [handle_request] sends nothing or exactly one
    datagram, on the socket the request came in on and to its sender, and
    it sends only for a request that passes every check. *)
Theorem handle_request_sends_at_most_once E data addr sock lang_code w :
  exists r w',
    Server.handle_request E data addr sock lang_code w = (r, w')
    /\ (sent w' = sent w
        \/ exists response,
             sent w' = (sock, response, addr) :: sent w
             /\ valid_request data /\ r = Ok tt).
Proof. apply handle_request_sent_cases. Qed.

(** ** The loop as a whole *)

Lemma service_sends_at_most_once sockets a w :
  exists c w',
    Server.service sockets a w = (Ok c, w')
    /\ (length (sent w') <= S (length (sent w)))%nat.
Proof.
  assert (Hcall : forall lang_code data addr w0,
    sent w0 = sent w ->
    exists c w',
      match (Server.handle_request (Server.a_env a) data addr
               (Server.a_sock a) lang_code;; ret Server.Next) w0 with
      | (Ok c, w') => (Ok c, w')
      | (Raise e, w') =>
        match e with
        | SocketTimeout =>
          print (py "ERROR: Receiving timed out, dropping packet");;
          ret Server.Next
        | _ =>
          print (py "ERROR: Receiving failed, dropping packet");;
          ret Server.Next
        end w'
      end = (Ok c, w')
      /\ (length (sent w') <= S (length (sent w)))%nat).
  { intros lang_code data addr w0 Hw0. unfold bind at 1.
    destruct (handle_request_sent_cases (Server.a_env a) data addr
                (Server.a_sock a) lang_code w0) as (r & w1 & -> & Hsent).
    assert (Hlen : (length (sent w1) <= S (length (sent w)))%nat).
    { destruct Hsent as [-> | (resp & -> & _)]; rewrite Hw0; cbn [length]; lia. }
    destruct r as [[]|e].
    - by eexists _, _.
    - destruct e; eexists _, _; (split; [reflexivity|]); exact Hlen. }
  assert (Hfail : forall e w0, sent w0 = sent w ->
    exists c w',
      match e with
      | SocketTimeout =>
        print (py "ERROR: Receiving timed out, dropping packet");;
        ret Server.Next
      | _ =>
        print (py "ERROR: Receiving failed, dropping packet");;
        ret Server.Next
      end w0 = (Ok c, w')
      /\ (length (sent w') <= S (length (sent w)))%nat).
  { intros e w0 Hw0.
    destruct e; eexists _, _; (split; [reflexivity|]);
      rewrite sent_stdout, Hw0; lia. }
  unfold Server.service, catch. unfold bind at 1. unfold lift at 1.
  destruct (Server.a_recv a) as [[data addr]|e]; [|by apply Hfail].
  cbn [fst snd]. unfold bind at 1. unfold lift at 1.
  destruct (py_getitem sockets 0) as [s0|e]; [|by apply Hfail].
  destruct (Nat.eqb _ s0); [by apply Hcall|].
  unfold bind at 1. unfold lift at 1.
  destruct (py_getitem sockets 1) as [s1|e]; [|by apply Hfail].
  destruct (Nat.eqb _ s1); [by apply Hcall|].
  unfold bind at 1. unfold lift at 1.
  destruct (py_getitem sockets 2) as [s2|e]; [|by apply Hfail].
  destruct (Nat.eqb _ s2); [by apply Hcall|].
  eexists _, _. split; [reflexivity|]. lia.
Qed.

Lemma for_ready_sends_at_most sockets ready : forall w,
  exists w',
    Server.for_ready sockets ready w = (Ok tt, w')
    /\ (length (sent w') <= length (sent w) + length ready)%nat.
Proof.
  induction ready as [|a ready IH]; intros w; cbn [Server.for_ready].
  - exists w. split; [done|lia].
  - unfold bind.
    destruct (service_sends_at_most_once sockets a w) as (c & w1 & -> & H1).
    destruct c.
    + destruct (IH w1) as (w' & -> & H'). exists w'. split; [done|].
      cbn [length]. lia.
    + exists w1. split; [done|]. cbn [length]. lia.
Qed.

(** The loop never raises, whatever arrives and whatever the receives do,
    and it sends at most as many datagrams as arrivals were given to it:
    a request is never answered twice. *)
Theorem serve_never_amplifies sockets wakeups : forall w,
  exists w',
    Server.serve sockets wakeups w = (Ok tt, w')
    /\ (length (sent w') <= length (sent w) + length (concat wakeups))%nat.
Proof.
  induction wakeups as [|ready more IH]; intros w; cbn [Server.serve concat].
  - exists w. split; [done|lia].
  - unfold bind at 1. unfold print, emit. unfold bind at 1.
    destruct (for_ready_sends_at_most sockets ready
                (Stdout (py "Waiting for requests...") :: w))
      as (w1 & -> & H1).
    destruct (IH w1) as (w' & -> & H'). exists w'. split; [done|].
    rewrite length_app. rewrite sent_stdout in H1. lia.
Qed.

(** What earlier wake-ups brought, malformed datagrams and failed receives
    included, does not keep later ones from being served: the loop over
    two runs of wake-ups is the loop over the second run, started where
    the first one ended. *)
Theorem serve_app sockets ws1 ws2 : forall w,
  exists w1,
    Server.serve sockets ws1 w = (Ok tt, w1)
    /\ Server.serve sockets (ws1 ++ ws2) w = Server.serve sockets ws2 w1.
Proof.
  induction ws1 as [|ready more IH]; intros w; cbn [Server.serve app].
  - by exists w.
  - unfold bind at 1 3. unfold print, emit. unfold bind at 1 2.
    destruct (for_ready_returns sockets ready
                (Stdout (py "Waiting for requests...") :: w)) as (w0 & ->).
    apply IH.
Qed.

(** A receive that times out or fails on one ready socket is logged, and
    the sockets that are ready after it in the same wake-up are served
    from there; nothing is sent for the failed one. *)
Theorem receive_failure_skipped sockets a rest e w :
  Server.a_recv a = Raise e ->
  Server.for_ready sockets (a :: rest) w
  = Server.for_ready sockets rest
      (Stdout (match e with
               | SocketTimeout => py "ERROR: Receiving timed out, dropping packet"
               | _ => py "ERROR: Receiving failed, dropping packet"
               end) :: w).
Proof.
  intros Hrecv. cbn [Server.for_ready]. unfold bind at 1.
  unfold Server.service, catch. unfold bind at 1. unfold lift at 1.
  rewrite Hrecv. by destruct e.
Qed.

Lemma receive_failure_skipped_witness :
  Server.for_ready [3; 4; 5]%nat
    [Server.mk_arrival 3%nat (Raise SocketTimeout) sample_env;
     Server.mk_arrival 4%nat (Ok (time_request, sample_addr)) sample_env] []
  = Server.for_ready [3; 4; 5]%nat
      [Server.mk_arrival 4%nat (Ok (time_request, sample_addr)) sample_env]
      [Stdout (py "ERROR: Receiving timed out, dropping packet")].
Proof.
  apply (receive_failure_skipped [3; 4; 5]%nat
           (Server.mk_arrival 3%nat (Raise SocketTimeout) sample_env)
           [Server.mk_arrival 4%nat (Ok (time_request, sample_addr)) sample_env]
           SocketTimeout []).
  reflexivity.
Defined.

(** ** Start-up *)

Section Startup.

Variable int_of_str : pystr -> option Z.

Lemma get_valid_portnum_accepted argv ports w :
  ports_accepted int_of_str argv ports ->
  Server.get_valid_portnum int_of_str argv w = (Ok (Some ports), w).
Proof.
  intros Hacc.
  destruct (get_valid_portnum_cases int_of_str argv w)
    as (r & w' & -> & _ & [(ports' & -> & -> & Hacc')|[_ Hnone]]).
  - do 3 f_equal.
    destruct Hacc as (? & ? & ? & ? & ? & ? & ? & -> & E1 & E2 & E3 & -> & _).
    destruct Hacc' as (? & ? & ? & ? & ? & ? & ? & [= <- <- <- <-]
                       & E1' & E2' & E3' & -> & _).
    congruence.
  - by destruct (Hnone ports).
Qed.

(** With an accepted command line and three successful binds, [main]
    creates and binds the sockets in the order English, Māori, German to
    the first, second and third port, and then runs the loop on exactly
    these three sockets in that order. *)
Theorem main_binds_in_order argv p1 p2 p3 s0 s1 s2 binds wakeups w :
  ports_accepted int_of_str argv [p1; p2; p3] ->
  binds 0 = Server.Bound s0 ->
  binds 1 = Server.Bound s1 ->
  binds 2 = Server.Bound s2 ->
  Server.main int_of_str argv binds wakeups w
  = Server.serve [s0; s1; s2] wakeups
      (Bind s2 p3 :: NewSocket s2 :: Stdout (binding_line German p3)
       :: Bind s1 p2 :: NewSocket s1 :: Stdout (binding_line Maori p2)
       :: Bind s0 p1 :: NewSocket s0 :: Stdout (binding_line English p1)
       :: w).
Proof.
  intros Hacc H0 H1 H2. unfold Server.main. unfold bind at 1.
  rewrite (get_valid_portnum_accepted argv [p1; p2; p3] w Hacc).
  cbv beta iota. unfold bind at 1. cbn [Server.bind_all].
  rewrite H0, H1, H2. reflexivity.
Qed.

(** With an accepted command line, when the bind of the language at
    position [k] is the first to fail, [main] exits with status 1 after
    closing every socket it had bound before, and the one whose binding
    failed; it sends nothing, and the run is the same whatever the loop
    would have been given: the loop is never entered. *)
Theorem main_bind_failure_cleans_up argv ports socks binds k w :
  ports_accepted int_of_str argv ports ->
  0 <= k <= 2 ->
  (forall j, 0 <= j < k -> binds j = Server.Bound (socks j)) ->
  bind_fails (binds k) ->
  exists w',
    (forall wakeups,
       Server.main int_of_str argv binds wakeups w = (Raise (SystemExit 1), w'))
    /\ (forall j, 0 <= j < k -> In (Close (socks j)) w')
    /\ (forall s, binds k = Server.BindFails s -> In (Close s) w')
    /\ sent w' = sent w.
Proof.
  intros Hacc Hk Hbound Hfail.
  destruct Hacc as (prog & a1 & a2 & a3 & p1 & p2 & p3 & Hargv & E1 & E2 & E3
                    & -> & Hrest).
  assert (Hacc : ports_accepted int_of_str argv [p1; p2; p3])
    by (exists prog, a1, a2, a3, p1, p2, p3; done).
  assert (Hstart : forall wakeups,
    Server.main int_of_str argv binds wakeups w
    = (sockets <- Server.bind_all binds [p1; p2; p3]
                    [(0, English); (1, Maori); (2, German)] [];;
       Server.serve sockets wakeups) w).
  { intros wakeups. unfold Server.main. unfold bind at 1.
    by rewrite (get_valid_portnum_accepted argv [p1; p2; p3] w Hacc). }
  assert (Hcases : k = 0 \/ k = 1 \/ k = 2) by lia.
  destruct Hcases as [-> | [-> | ->]].
  - destruct (binds 0) as [|s|s] eqn:Hb; [| |done].
    + eexists. split.
      { intros wakeups. rewrite Hstart. unfold bind at 1.
        cbn [Server.bind_all]. rewrite Hb. reflexivity. }
      split_and!; [intros j Hj; lia|done|done].
    + eexists. split.
      { intros wakeups. rewrite Hstart. unfold bind at 1.
        cbn [Server.bind_all]. rewrite Hb. reflexivity. }
      split_and!; [intros j Hj; lia| |done].
      intros s' [= <-]. cbn [In]. by left.
  - pose proof (Hbound 0 ltac:(lia)) as Hb0.
    destruct (binds 1) as [|s|s] eqn:Hb; [| |done].
    + eexists. split.
      { intros wakeups. rewrite Hstart. unfold bind at 1.
        cbn [Server.bind_all]. rewrite Hb0, Hb. reflexivity. }
      split_and!; [|done|done].
      intros j Hj. assert (j = 0) as -> by lia. cbn [In]. by left.
    + eexists. split.
      { intros wakeups. rewrite Hstart. unfold bind at 1.
        cbn [Server.bind_all]. rewrite Hb0, Hb. reflexivity. }
      split_and!; [| |done].
      * intros j Hj. assert (j = 0) as -> by lia. cbn [In]. by left.
      * intros s' [= <-]. cbn [In]. by right; left.
  - pose proof (Hbound 0 ltac:(lia)) as Hb0.
    pose proof (Hbound 1 ltac:(lia)) as Hb1.
    destruct (binds 2) as [|s|s] eqn:Hb; [| |done].
    + eexists. split.
      { intros wakeups. rewrite Hstart. unfold bind at 1.
        cbn [Server.bind_all]. rewrite Hb0, Hb1, Hb. reflexivity. }
      split_and!; [|done|done].
      intros j Hj. assert (j = 0 \/ j = 1) as [-> | ->] by lia;
        cbn [In]; tauto.
    + eexists. split.
      { intros wakeups. rewrite Hstart. unfold bind at 1.
        cbn [Server.bind_all]. rewrite Hb0, Hb1, Hb. reflexivity. }
      split_and!; [| |done].
      * intros j Hj. assert (j = 0 \/ j = 1) as [-> | ->] by lia;
          cbn [In]; tauto.
      * intros s' [= <-]. cbn [In]. tauto.
Qed.

End Startup.

Lemma main_binds_in_order_witness :
  Server.main decimal_int server_argv
    (fun i => Server.Bound (Z.to_nat (i + 3))) [] []
  = (Ok tt,
     [Bind 5%nat 30003; NewSocket 5%nat;
      Stdout (py "Binding German to port 30003");
      Bind 4%nat 30002; NewSocket 4%nat;
      Stdout (py "Binding Māori to port 30002");
      Bind 3%nat 30001; NewSocket 3%nat;
      Stdout (py "Binding English to port 30001")]).
Proof.
  rewrite (main_binds_in_order decimal_int server_argv 30001 30002 30003
             3%nat 4%nat 5%nat (fun i => Server.Bound (Z.to_nat (i + 3))) [] []).
  - vm_compute. reflexivity.
  - exists (py "server.py"), (py "30001"), (py "30002"), (py "30003"),
      30001, 30002, 30003.
    repeat split; try reflexivity; try lia.
  - reflexivity.
  - reflexivity.
  - reflexivity.
Defined.

Lemma main_bind_failure_cleans_up_witness :
  exists w',
    Server.main decimal_int server_argv
      (fun i => if i =? 2 then Server.BindFails 5%nat
                else Server.Bound (Z.to_nat (i + 3))) [] []
    = (Raise (SystemExit 1), w')
    /\ In (Close 3%nat) w' /\ In (Close 4%nat) w' /\ In (Close 5%nat) w'.
Proof.
  destruct (main_bind_failure_cleans_up decimal_int server_argv
              [30001; 30002; 30003] (fun j => Z.to_nat (j + 3))
              (fun i => if i =? 2 then Server.BindFails 5%nat
                        else Server.Bound (Z.to_nat (i + 3))) 2 [])
    as (w' & Hrun & Hclosed & Hfailed & _).
  - exists (py "server.py"), (py "30001"), (py "30002"), (py "30003"),
      30001, 30002, 30003.
    repeat split; try reflexivity; try lia.
  - lia.
  - intros j Hj. destruct (Z.eqb_spec j 2); [lia|reflexivity].
  - simpl. exact I.
  - exists w'. split; [apply Hrun|]. split; [apply (Hclosed 0); lia|].
    split; [apply (Hclosed 1); lia|]. apply Hfailed. reflexivity.
Defined.

(** ** Which port error is reported *)

Section PortErrors.

Variable int_of_str : pystr -> option Z.

Lemma for_each_lines (bad : Z -> bool) (line : Z -> pystr) (ports : list Z) :
  forall w,
    Server.for_each ports
      (fun p => if bad p then print (line p) else ret tt) w
    = (Ok tt, port_lines bad line ports ++ w).
Proof.
  unfold port_lines.
  induction ports as [|p ports IH]; intros w; cbn [Server.for_each].
  - reflexivity.
  - unfold bind. cbn [List.filter]. destruct (bad p).
    + unfold print, emit. rewrite IH. cbn [map rev].
      by rewrite <- app_assoc.
    + unfold ret. by rewrite IH.
Qed.

(** When the three arguments parse, the checks come in the order
    duplicates, positivity, range, and only the first kind of error
    found is reported: two equal ports give the duplicate error alone,
    whatever their values; otherwise a port that is not positive gives
    one not-positive line per such port and no range line; otherwise
    there is one range line per port outside [1024, 64000]. In each
    case the function returns None. *)
Theorem port_error_precedence prog a1 a2 a3 p1 p2 p3 w :
  int_of_str a1 = Some p1 -> int_of_str a2 = Some p2 ->
  int_of_str a3 = Some p3 ->
  let run := Server.get_valid_portnum int_of_str [prog; a1; a2; a3] w in
  let distinct := p1 <> p2 /\ p1 <> p3 /\ p2 <> p3 in
  let positive := 0 < p1 /\ 0 < p2 /\ 0 < p3 in
  (~ distinct ->
   run = (Ok None, Stdout (py "ERROR: Duplicate ports given") :: w))
  /\ (distinct -> ~ positive ->
      run = (Ok None,
             port_lines (fun p => p <=? 0) not_positive_line [p1; p2; p3]
             ++ w))
  /\ (distinct -> positive ->
      ~ (1024 <= p1 <= 64000 /\ 1024 <= p2 <= 64000 /\ 1024 <= p3 <= 64000) ->
      run = (Ok None,
             port_lines (fun p => negb (Server.in_range p)) not_in_range_line
               [p1; p2; p3] ++ w)).
Proof.
  intros H1 H2 H3 run distinct positive.
  assert (Hrun : run =
    (if negb (size (list_to_set [p1; p2; p3] : gset Z) =? 3)%nat then
       print (py "ERROR: Duplicate ports given");; ret None
     else if existsb (fun p => p <=? 0) [p1; p2; p3] then
       Server.for_each [p1; p2; p3]
         (fun p => if p <=? 0 then print (not_positive_line p) else ret tt);;
       ret None
     else if negb (forallb Server.in_range [p1; p2; p3]) then
       Server.for_each [p1; p2; p3]
         (fun p => if negb (Server.in_range p)
                   then print (not_in_range_line p) else ret tt);;
       ret None
     else ret (Some [p1; p2; p3])) w).
  { unfold run, Server.get_valid_portnum.
    change (len [prog; a1; a2; a3] =? 4) with true. cbn [negb].
    change (py_slice [prog; a1; a2; a3] 1 (len [prog; a1; a2; a3]))
      with [a1; a2; a3].
    unfold bind at 1. cbn [Server.parse_args]. rewrite H1. cbn [app].
    rewrite H2. cbn [app]. rewrite H3. reflexivity. }
  rewrite Hrun. clear Hrun.
  pose proof (three_distinct p1 p2 p3) as Hsize. fold distinct in Hsize.
  split_and!.
  - intros Hdup.
    destruct (Nat.eqb_spec (size (list_to_set [p1; p2; p3] : gset Z)) 3);
      [tauto|reflexivity].
  - intros Hdist Hneg.
    destruct (Nat.eqb_spec (size (list_to_set [p1; p2; p3] : gset Z)) 3);
      [|tauto].
    cbn [negb]. replace (existsb (fun p => p <=? 0) [p1; p2; p3]) with true.
    + unfold bind. by rewrite for_each_lines.
    + symmetry. cbn [existsb]. unfold positive in Hneg. zbool; done.
  - intros Hdist Hpos Hrange.
    destruct (Nat.eqb_spec (size (list_to_set [p1; p2; p3] : gset Z)) 3);
      [|tauto].
    cbn [negb]. destruct Hpos as (? & ? & ?).
    replace (existsb (fun p => p <=? 0) [p1; p2; p3]) with false
      by (symmetry; cbn [existsb]; zbool; done).
    replace (forallb Server.in_range [p1; p2; p3]) with false.
    + cbn [negb]. unfold bind. by rewrite for_each_lines.
    + symmetry. cbn [forallb]. unfold Server.in_range. zbool; done.
Qed.

End PortErrors.

Lemma port_error_precedence_witness :
  Server.get_valid_portnum decimal_int
    [py "server.py"; py "80"; py "80"; py "30003"] []
  = (Ok None, [Stdout (py "ERROR: Duplicate ports given")]).
Proof.
  apply (port_error_precedence decimal_int (py "server.py") (py "80") (py "80")
           (py "30003") 80 80 30003 []).
  - reflexivity.
  - reflexivity.
  - reflexivity.
  - intros (Hne & _). apply Hne. reflexivity.
Defined.

(** ** The size of a reply *)

Lemma digits_fuel_length fuel : forall n acc k,
  0 <= n < 10 ^ Z.of_nat (S k) ->
  (length (digits_fuel fuel n acc) <= S k + length acc)%nat.
Proof.
  induction fuel as [|fuel IH]; intros n acc k Hn; cbn [digits_fuel].
  - cbn [length]. lia.
  - destruct (Z.ltb_spec n 10); [cbn [length]; lia|].
    destruct k as [|k]; [change (10 ^ Z.of_nat 1) with 10 in Hn; lia|].
    specialize (IH (n / 10) ((48 + n mod 10) :: acc) k).
    cbn [length] in IH. etrans; [apply IH|lia].
    split; [apply Z.div_pos; lia|].
    apply Z.div_lt_upper_bound; [lia|].
    replace (Z.of_nat (S (S k))) with (Z.succ (Z.of_nat (S k))) in Hn by lia.
    rewrite Z.pow_succ_r in Hn by lia. lia.
Qed.

Lemma str_of_int_width n k :
  0 <= n < 10 ^ Z.of_nat (S k) ->
  forallb is_ascii (str_of_int n) = true /\ 0 <= ulen (str_of_int n) <= Z.of_nat (S k).
Proof.
  intros Hn. unfold str_of_int. destruct (Z.ltb_spec n 0); [lia|].
  unfold digits.
  destruct (digits_fuel_shape (Z.to_nat (Z.log2 n)) n []) as (ds & Hds & Ha & _).
  pose proof (digits_fuel_length (Z.to_nat (Z.log2 n)) n [] k Hn) as Hl.
  rewrite Hds, app_nil_r in *. split; [done|].
  rewrite ulen_ascii by done. unfold len. cbn [length] in Hl. lia.
Qed.

Lemma fmt02_width n :
  0 <= n < 100 -> forallb is_ascii (fmt02 n) = true /\ ulen (fmt02 n) = 2.
Proof.
  intros Hn. unfold fmt02. destruct (Z.ltb_spec n 0); [lia|].
  destruct (str_of_int_width n 1) as [Ha Hl]; [change (10 ^ Z.of_nat 2) with 100; lia|].
  unfold str_of_int in Ha, Hl. destruct (Z.ltb_spec n 0); [lia|].
  rewrite ulen_ascii in Hl by done.
  assert (Hpos : (1 <= length (digits n))%nat).
  { unfold digits. destruct (Z.to_nat (Z.log2 n)); cbn [digits_fuel].
    - cbn [length]. lia.
    - destruct (n <? 10); [cbn [length]; lia|].
      destruct (digits_fuel_shape n0 (n / 10) [48 + n mod 10]) as (ds & -> & _).
      rewrite length_app. cbn [length]. lia. }
  unfold len in Hl.
  destruct (Nat.ltb_spec (length (digits n)) 2).
  - split; [cbn [forallb]; by rewrite Ha|].
    rewrite ulen_cons_ascii by done. rewrite ulen_ascii by done.
    unfold len. lia.
  - split; [done|]. rewrite ulen_ascii by done. unfold len. lia.
Qed.

(** For every reading of the clock, every language and both request
    types the text is formatted without error, can be encoded, and takes
    at most 52 bytes of UTF-8, so that the text-too-long branch of the
    handler is never taken. *)
Theorem reply_text_at_most_52_bytes dt lang request_type :
  datetime_ok dt ->
  exists text tb,
    request_text dt lang request_type = Ok text
    /\ str_encode text = Ok tb
    /\ len tb <= 52.
Proof.
  intros (Hy & Hmo & Hd & Hh & Hmi).
  assert (Hfit : exists text,
            request_text dt lang request_type = Ok text
            /\ forallb is_scalar text = true /\ ulen text <= 52).
  { unfold request_text. destruct (request_type =? 1).
    - destruct (month_name dt lang Hmo) as (m & Hget & Hms & Hml).
      destruct (str_of_int_width (day dt) 1) as [Hda Hdl];
        [change (10 ^ Z.of_nat 2) with 100; lia|].
      destruct (str_of_int_width (year dt) 3) as [Hya Hyl];
        [change (10 ^ Z.of_nat 4) with 10000; lia|].
      apply ascii_scalar in Hda, Hya.
      unfold Server.format_date. rewrite Hget. cbn [rbind].
      destruct lang; (eexists; split; [reflexivity|]);
        rewrite !forallb_app, !ulen_app, Hms, Hda, Hya; closed_text;
        (split; [reflexivity|lia]).
    - destruct (fmt02_width (hour dt)) as [Hha Hhl]; [lia|].
      destruct (fmt02_width (minute dt)) as [Hma Hml]; [lia|].
      apply ascii_scalar in Hha, Hma.
      unfold Server.format_time.
      destruct lang; (eexists; split; [reflexivity|]);
        rewrite !forallb_app, !ulen_app, Hha, Hma, Hhl, Hml; closed_text;
        (split; [reflexivity|lia]). }
  destruct Hfit as (text & Htext & Hs & Hl).
  exists text, (utf8_bytes text). split; [done|].
  split; [by apply str_encode_ok|]. done.
Qed.

Lemma reply_text_at_most_52_bytes_witness :
  exists text tb,
    request_text (mk_datetime 9999 10 31 23 59) Maori 0x0001 = Ok text
    /\ str_encode text = Ok tb
    /\ len tb <= 52.
Proof.
  destruct (reply_text_at_most_52_bytes (mk_datetime 9999 10 31 23 59) Maori
              0x0001) as (text & tb & Htext & Henc & Hlen).
  - unfold datetime_ok. simpl. lia.
  - exists text, tb. repeat split; assumption.
Defined.

(** The longest text there is: a Māori date in Whiringa-ā-rangi. *)
Example longest_text :
  ulen (py "Ko te rā o tēnei rā ko Whiringa-ā-rangi 30, 2024") = 52.
Proof. reflexivity. Qed.

(** ** [fill_packet_fields] on any buffer *)

Lemma len_nonneg {A} (l : list A) : 0 <= len l.
Proof. unfold len. lia. Qed.

Lemma len_set_slice arr i j v :
  0 <= i <= j ->
  len (set_slice arr i j v)
  = Z.min i (len arr) + len v + Z.max 0 (len arr - j).
Proof.
  intros Hij. rewrite set_slice_nonneg by done. unfold len.
  rewrite !length_app, length_take, length_drop. lia.
Qed.

Lemma len_insert (arr : bytes) i x : len (<[i := x]> arr) = len arr.
Proof. unfold len. f_equal. apply length_insert. Qed.

Lemma set_item_short arr i x :
  0 <= x < 256 -> 0 <= i -> len arr <= i ->
  set_item arr i x = Raise IndexError.
Proof. intros Hx Hi Hlen. unfold set_item, is_byte. zbool; done. Qed.



(** The buffer after the four two-byte fields are written. *)
Lemma fill_header_len arr a b c d :
  len a = 2 -> len b = 2 -> len c = 2 -> len d = 2 ->
  len (set_slice (set_slice (set_slice (set_slice arr 0 2 a) 2 4 b) 4 6 c)
         6 8 d) = Z.max 8 (len arr).
Proof.
  intros Ha Hb Hc Hd. pose proof (len_nonneg arr).
  rewrite !len_set_slice by lia. lia.
Qed.

(** Over any buffer of at least 13 bytes the result is one and the same
    packet: 13 bytes of header followed by the text and nothing else,
    whatever the buffer held and however long it was. *)
Theorem fill_packet_fields_any_buffer ByteArr LangCode Dt TextByte :
  13 <= len ByteArr -> 0 <= LangCode < 65536 -> fits Dt ->
  len TextByte <= 255 ->
  exists pkt,
    Server.fill_packet_fields ByteArr LangCode Dt TextByte = Ok pkt
    /\ len pkt = 13 + len TextByte
    /\ py_slice pkt 13 (len pkt) = TextByte
    /\ forall other,
         13 <= len other ->
         Server.fill_packet_fields other LangCode Dt TextByte = Ok pkt.
Proof.
  intros Hlen Hlc Hfit Htb.
  exists (response_layout LangCode Dt TextByte).
  split; [by apply fill_packet_fields_layout|].
  split; [apply layout_len|].
  split; [by rewrite layout_len, layout_text|].
  intros other Hother. by apply fill_packet_fields_layout.
Qed.

Lemma fill_packet_fields_any_buffer_witness :
  exists pkt,
    Server.fill_packet_fields (replicate 20 0xFF) 0x0003 sample_time [72; 105]
    = Ok pkt
    /\ len pkt = 15
    /\ Server.fill_packet_fields (replicate 13 0) 0x0003 sample_time [72; 105]
       = Ok pkt.
Proof.
  destruct (fill_packet_fields_any_buffer (replicate 20 0xFF) 0x0003
              sample_time [72; 105]) as (pkt & Hrun & Hlen & _ & Hother).
  - vm_compute. discriminate.
  - lia.
  - unfold fits. simpl. lia.
  - vm_compute. discriminate.
  - exists pkt. split; [exact Hrun|]. split; [exact Hlen|].
    apply Hother. vm_compute. discriminate.
Defined.

(** A buffer shorter than 13 bytes is not grown to fit: with fields that
    fit, the call raises IndexError at the first single-byte field that
    lies beyond the buffer. *)
Theorem fill_packet_fields_short_buffer ByteArr LangCode Dt TextByte :
  len ByteArr < 13 -> 0 <= LangCode < 65536 -> fits Dt ->
  len TextByte <= 255 ->
  Server.fill_packet_fields ByteArr LangCode Dt TextByte = Raise IndexError.
Proof.
  intros Hlen Hlc (Hy & Hmo & Hd & Hh & Hmi) Htb.
  pose proof (len_nonneg TextByte) as Htb0.
  unfold Server.fill_packet_fields.
  rewrite (to_bytes2_ok Server.MAGIC_NO) by (unfold Server.MAGIC_NO; lia).
  rewrite (to_bytes2_ok Server.DT_RESPONSE) by (unfold Server.DT_RESPONSE; lia).
  rewrite !to_bytes2_ok by done. cbn [rbind].
  match goal with
  | |- context [set_item ?arr 8 _] =>
    assert (Hn : len arr = Z.max 8 (len ByteArr)) by (by apply fill_header_len);
    generalize dependent arr
  end.
  intros arr Hn. pose proof (len_nonneg ByteArr).
  assert (Hcases : len arr = 8 \/ len arr = 9 \/ len arr = 10
                   \/ len arr = 11 \/ len arr = 12) by lia.
  clear Hn.
  destruct Hcases as [Hc | [Hc | [Hc | [Hc | Hc]]]];
    repeat first
      [ rewrite set_item_short by (rewrite ?len_insert; lia); reflexivity
      | rewrite set_item_ok by (rewrite ?len_insert; lia); cbn [rbind] ].
Qed.

Lemma fill_packet_fields_short_buffer_witness :
  Server.fill_packet_fields (replicate 10 0) 0x0001 sample_time [72; 105]
  = Raise IndexError.
Proof.
  apply (fill_packet_fields_short_buffer (replicate 10 0) 0x0001 sample_time
           [72; 105]).
  - vm_compute. reflexivity.
  - lia.
  - unfold fits. simpl. lia.
  - vm_compute. discriminate.
Defined.



(** * Responder and requester together *)

Lemma language_of_code_name lang_code lang :
  Server.LANGUAGE_CODES lang_code = Ok lang ->
  Client.language_of_code lang_code = Ok (language_name lang).
Proof.
  unfold Server.LANGUAGE_CODES, Client.language_of_code.
  destruct (lang_code =? 1); [by intros [= <-]|].
  destruct (lang_code =? 2); [by intros [= <-]|].
  destruct (lang_code =? 3); [by intros [= <-]|done].
Qed.

Lemma language_code_cases lang_code lang :
  Server.LANGUAGE_CODES lang_code = Ok lang ->
  lang_code = 0x0001 \/ lang_code = 0x0002 \/ lang_code = 0x0003.
Proof. unfold Server.LANGUAGE_CODES. zbool; (done || tauto). Qed.

(** The first two steps of [process_response] on a packet in the
    response layout: the fields come back and the structural pass
    accepts. *)
Lemma process_response_layout sock lang_code lang dt text tb w :
  Server.LANGUAGE_CODES lang_code = Ok lang ->
  str_encode text = Ok tb ->
  Client.process_response sock (response_layout lang_code dt tb) w =
    ((ok2 <- Client.validate_response_packet_2 sock (day dt) (month dt)
               (year dt) (hour dt) (minute dt);;
      if ok2 then
        Client.print_response lang_code text (day dt) (month dt) (year dt)
          (hour dt) (minute dt)
      else ret tt);;
     close sock) w.
Proof.
  intros Hlang Henc. unfold Client.process_response. unfold bind at 1.
  rewrite (extract_response_layout lang_code dt text tb sock w Henc).
  cbn [Client.f_magic_no Client.f_packet_type Client.f_lang_code
       Client.f_text Client.f_text_length Client.f_day Client.f_month
       Client.f_year Client.f_hour Client.f_minute].
  unfold bind at 1.
  assert (Hv1 : Client.validate_response_packet_1 sock
                  (response_layout lang_code dt tb) 0x36FB 0x0002 lang_code
                  (len tb) w = (Ok true, w)).
  { unfold Client.validate_response_packet_1. rewrite layout_len.
    unfold Client.MAGIC_NO, Client.DT_RESPONSE.
    pose proof (len_nonneg tb).
    destruct (language_code_cases _ _ Hlang) as [-> | [-> | ->]];
      zbool; done. }
  rewrite Hv1. reflexivity.
Qed.

(** What the responder sends for a valid request the requester accepts and
    prints, as long as the clock's year is below 2100: the language of the
    socket, the text as it was formatted, the date and the time, and then
    it closes its socket and returns. *)
Theorem reply_accepted_by_requester E data addr sock lang_code lang csock w cw :
  valid_request data ->
  Server.LANGUAGE_CODES lang_code = Ok lang ->
  datetime_ok (Server.now E) ->
  year (Server.now E) < 2100 ->
  Server.send_ok E = true ->
  exists text response,
    request_text (Server.now E) lang (request_of data) = Ok text
    /\ sent (snd (Server.handle_request E data addr sock lang_code w))
       = (sock, response, addr) :: sent w
    /\ Client.process_response csock response cw
       = (Ok tt,
          Close csock
          :: Stdout (py "Time: " ++ fmt02 (hour (Server.now E)) ++ py ":"
                     ++ fmt02 (minute (Server.now E)))
          :: Stdout (py "Date: " ++ str_of_int (day (Server.now E)) ++ py "/"
                     ++ str_of_int (month (Server.now E)) ++ py "/"
                     ++ str_of_int (year (Server.now E)))
          :: Stdout (py "Text: " ++ text)
          :: Stdout (language_name lang ++ py " response received:")
          :: cw).
Proof.
  intros Hvalid Hlang Hdt Hyear Hsend.
  destruct (handle_request_reply E data addr sock lang_code lang w
              Hvalid Hlang Hdt) as (text & tb & Htext & Henc & Hlen & Hrun).
  exists text, (response_layout lang_code (Server.now E) tb).
  split; [done|]. split; [by rewrite Hrun, Hsend|].
  rewrite (process_response_layout csock lang_code lang (Server.now E) text tb
             cw Hlang Henc).
  unfold bind at 1. unfold bind at 1.
  rewrite (validate_response_packet_2_accepts (day (Server.now E))
             (month (Server.now E)) (year (Server.now E))
             (hour (Server.now E)) (minute (Server.now E)));
    [|unfold datetime_ok in Hdt; unfold in_ranges; lia].
  unfold Client.print_response. unfold bind at 1. unfold lift at 1.
  rewrite (language_of_code_name _ _ Hlang). reflexivity.
Qed.

Lemma reply_accepted_by_requester_witness :
  exists response,
    sent (snd (Server.handle_request sample_env time_request sample_addr 5%nat
                 0x0003 []))
    = [(5%nat, response, sample_addr)]
    /\ Client.process_response 9%nat response []
       = (Ok tt,
          [Close 9%nat; Stdout (py "Time: 14:07"); Stdout (py "Date: 17/5/2024");
           Stdout (py "Text: Die Uhrzeit ist 14:07");
           Stdout (py "German response received:")]).
Proof.
  destruct (reply_accepted_by_requester sample_env time_request sample_addr
              5%nat 0x0003 German 9%nat [] [])
    as (text & response & Htext & Hsent & Hrun).
  - unfold valid_request. repeat split; try reflexivity. right. reflexivity.
  - reflexivity.
  - unfold datetime_ok. simpl. lia.
  - simpl. lia.
  - reflexivity.
  - exists response. split; [exact Hsent|]. rewrite Hrun.
    vm_compute in Htext. injection Htext as <-. vm_compute. reflexivity.
Defined.

(** The responder has no upper limit on the year and the requester has
    one: from the year 2100 on, every reply of the responder is refused by
    the requester with the invalid-year error and exit status 1. *)
Theorem reply_refused_from_2100 E data addr sock lang_code lang csock w cw :
  valid_request data ->
  Server.LANGUAGE_CODES lang_code = Ok lang ->
  datetime_ok (Server.now E) ->
  2100 <= year (Server.now E) ->
  Server.send_ok E = true ->
  exists response,
    sent (snd (Server.handle_request E data addr sock lang_code w))
    = (sock, response, addr) :: sent w
    /\ Client.process_response csock response cw
       = (Raise (SystemExit 1),
          Close csock :: Stdout (py "ERROR: Packet has invalid year") :: cw).
Proof.
  intros Hvalid Hlang Hdt Hyear Hsend.
  destruct (handle_request_reply E data addr sock lang_code lang w
              Hvalid Hlang Hdt) as (text & tb & Htext & Henc & Hlen & Hrun).
  exists (response_layout lang_code (Server.now E) tb).
  split; [by rewrite Hrun, Hsend|].
  rewrite (process_response_layout csock lang_code lang (Server.now E) text tb
             cw Hlang Henc).
  unfold bind at 1. unfold bind at 1. unfold Client.validate_response_packet_2.
  destruct (Z.leb_spec 2100 (year (Server.now E))); [reflexivity|lia].
Qed.

Lemma reply_refused_from_2100_witness :
  exists response,
    sent (snd (Server.handle_request
                 (Server.mk_env (mk_datetime 2100 1 1 0 0) true) date_request
                 sample_addr 3%nat 0x0001 []))
    = [(3%nat, response, sample_addr)]
    /\ Client.process_response 9%nat response []
       = (Raise (SystemExit 1),
          [Close 9%nat; Stdout (py "ERROR: Packet has invalid year")]).
Proof.
  apply (reply_refused_from_2100
           (Server.mk_env (mk_datetime 2100 1 1 0 0) true) date_request
           sample_addr 3%nat 0x0001 English 9%nat [] []).
  - unfold valid_request. repeat split; try reflexivity. left. reflexivity.
  - reflexivity.
  - unfold datetime_ok. simpl. lia.
  - simpl. lia.
  - reflexivity.
Defined.

(** * Further properties of the requester *)

(** ** Any response at all *)

Lemma process_response_short sock response w :
  len response < 13 ->
  Client.process_response sock response w
  = (Raise (SystemExit 1), Close sock :: Stdout Client.too_small :: w).
Proof.
  intros Hlen. pose proof (len_nonneg response) as Hpos.
  assert (Hext : Client.extract_response_data response sock w
                 = (Raise (SystemExit 1),
                    Close sock :: Stdout Client.too_small :: w)).
  { unfold Client.extract_response_data, catch, lift.
    assert (Hget : forall i, 0 <= i ->
              (len response <= i /\ py_getitem response i = Raise IndexError)
              \/ (i < len response /\ exists x, py_getitem response i = Ok x)).
    { intros i Hi. destruct (Z_le_gt_dec (len response) i).
      - left. split; [done|]. by apply py_getitem_short.
      - right. split; [lia|]. apply py_getitem_some. lia. }
    destruct (Hget 8) as [[_ ->]|[_ (mo & ->)]]; [lia|reflexivity|].
    destruct (Hget 9) as [[_ ->]|[_ (d & ->)]]; [lia|reflexivity|].
    destruct (Hget 10) as [[_ ->]|[_ (h & ->)]]; [lia|reflexivity|].
    destruct (Hget 11) as [[_ ->]|[_ (mi & ->)]]; [lia|reflexivity|].
    destruct (Hget 12) as [[_ ->]|[? _]]; [lia|reflexivity|lia]. }
  unfold Client.process_response. unfold bind at 1. by rewrite Hext.
Qed.



Lemma validate_response_packet_1_cases sock response magic_no packet_type
    lang_code text_length w :
  (well_formed response magic_no packet_type lang_code text_length
   /\ Client.validate_response_packet_1 sock response magic_no packet_type
        lang_code text_length w = (Ok true, w))
  \/ (~ well_formed response magic_no packet_type lang_code text_length
      /\ exists line,
           Client.validate_response_packet_1 sock response magic_no
             packet_type lang_code text_length w
           = (Raise (SystemExit 1), Close sock :: Stdout line :: w)
           /\ (len response < 13 -> line = Client.too_small)
           /\ (13 <= len response -> magic_no <> 0x36FB ->
               line = Client.bad_magic)
           /\ (13 <= len response -> magic_no = 0x36FB ->
               packet_type <> 0x0002 -> line = Client.bad_type)
           /\ (13 <= len response -> magic_no = 0x36FB ->
               packet_type = 0x0002 ->
               ~ (lang_code = 0x0001 \/ lang_code = 0x0002
                  \/ lang_code = 0x0003) -> line = Client.bad_language)
           /\ (13 <= len response -> magic_no = 0x36FB ->
               packet_type = 0x0002 ->
               (lang_code = 0x0001 \/ lang_code = 0x0002
                \/ lang_code = 0x0003) -> line = Client.bad_length)).
Proof.
  unfold Client.validate_response_packet_1, well_formed, Client.MAGIC_NO,
    Client.DT_RESPONSE.
  destruct (Z.ltb_spec (len response) 13).
  { right. split; [lia|]. eexists. split; [reflexivity|].
    split_and!; intros; (done || lia). }
  destruct (Z.eqb_spec magic_no 0x36FB); cbn [negb].
  2:{ right. split; [tauto|]. eexists. split; [reflexivity|].
      split_and!; intros; (done || lia). }
  destruct (Z.eqb_spec packet_type 0x0002); cbn [negb].
  2:{ right. split; [tauto|]. eexists. split; [reflexivity|].
      split_and!; intros; (done || lia). }
  destruct (Z.eqb_spec lang_code 1); [|destruct (Z.eqb_spec lang_code 2);
    [|destruct (Z.eqb_spec lang_code 3)]]; cbn [orb negb].
  4:{ right. split; [intros (_ & _ & _ & Hl & _); lia|].
      eexists. split; [reflexivity|].
      split_and!; intros; (done || lia). }
  all: destruct (Z.eqb_spec (len response) (13 + text_length)); cbn [negb];
    [left; split; [split_and!; (done || tauto)|reflexivity]
    |right; split; [tauto|]; eexists; split; [reflexivity|];
     split_and!; intros; (done || lia || tauto)].
Qed.

(** The structural pass accepts exactly a response of at least 13 bytes
    with the magic number, the response type, a language code among 1, 2,
    3 and a Length byte equal to the number of bytes after the header; it
    checks in this order and reports the first failure, closing the
    socket and exiting with status 1. *)
Theorem structural_validation sock response magic_no packet_type lang_code
    text_length w :
  (Client.validate_response_packet_1 sock response magic_no packet_type
     lang_code text_length w = (Ok true, w)
   <-> well_formed response magic_no packet_type lang_code text_length)
  /\ (~ well_formed response magic_no packet_type lang_code text_length ->
      exists line,
        Client.validate_response_packet_1 sock response magic_no packet_type
          lang_code text_length w
        = (Raise (SystemExit 1), Close sock :: Stdout line :: w)
        /\ (len response < 13 -> line = Client.too_small)
        /\ (13 <= len response -> magic_no <> 0x36FB ->
            line = Client.bad_magic)
        /\ (13 <= len response -> magic_no = 0x36FB ->
            packet_type <> 0x0002 -> line = Client.bad_type)
        /\ (13 <= len response -> magic_no = 0x36FB ->
            packet_type = 0x0002 ->
            ~ (lang_code = 0x0001 \/ lang_code = 0x0002
               \/ lang_code = 0x0003) -> line = Client.bad_language)
        /\ (13 <= len response -> magic_no = 0x36FB ->
            packet_type = 0x0002 ->
            (lang_code = 0x0001 \/ lang_code = 0x0002
             \/ lang_code = 0x0003) -> line = Client.bad_length)).
Proof.
  destruct (validate_response_packet_1_cases sock response magic_no
              packet_type lang_code text_length w)
    as [[Hwf Hrun]|[Hbad (line & Hrun & Hlines)]].
  - split; [by split|]. intros Hbad. by destruct Hbad.
  - split.
    + split; [|by intros Hwf]. rewrite Hrun. intros [=].
    + intros _. by exists line.
Qed.

Lemma sent_lines lines w : sent (map Stdout lines ++ w) = sent w.
Proof. induction lines as [|l lines IH]; [done|]. cbn [map app]. done. Qed.

Lemma process_response_cases sock response w :
  exists r lines,
    Client.process_response sock response w
    = (r, Close sock :: map Stdout lines ++ w)
    /\ ((r = Ok tt /\ length lines = 4%nat)
        \/ (r = Raise (SystemExit 1) /\ length lines = 1%nat)).
Proof.
  destruct (Z_lt_ge_dec (len response) 13) as [Hshort|Hlong].
  { exists (Raise (SystemExit 1)), [Client.too_small].
    split; [by apply process_response_short|by right]. }
  destruct (extract_response_data_long response sock w)
    as (mo & d & h & mi & tl & _ & _ & _ & _ & _ & Hext); [lia|].
  unfold Client.process_response. unfold bind at 1. rewrite Hext.
  destruct (utf8_decode _) as [text|].
  2:{ exists (Raise (SystemExit 1)), [Client.invalid_text]. by split; [|right]. }
  cbn [Client.f_magic_no Client.f_packet_type Client.f_lang_code
       Client.f_text Client.f_text_length Client.f_day Client.f_month
       Client.f_year Client.f_hour Client.f_minute].
  unfold bind at 1.
  destruct (validate_response_packet_1_cases sock response
              (int_from_bytes (py_slice response 0 2))
              (int_from_bytes (py_slice response 2 4))
              (int_from_bytes (py_slice response 4 6)) tl w)
    as [[Hwf ->]|[_ (line & -> & _)]].
  2:{ exists (Raise (SystemExit 1)), [line]. by split; [|right]. }
  unfold bind at 1. unfold bind at 1.
  destruct (in_ranges_dec d mo (int_from_bytes (py_slice response 6 8)) h mi)
    as [Hin|Hout].
  2:{ destruct (validate_response_packet_2_rejects _ _ _ _ _ Hout sock w)
        as (line & ->).
      exists (Raise (SystemExit 1)), [line]. by split; [|right]. }
  rewrite (validate_response_packet_2_accepts _ _ _ _ _ Hin sock w).
  unfold Client.print_response. unfold bind at 1. unfold lift at 1.
  destruct Hwf as (_ & _ & _ & Hlang & _).
  assert (Hname : exists name,
            Client.language_of_code (int_from_bytes (py_slice response 4 6))
            = Ok name).
  { unfold Client.language_of_code.
    destruct Hlang as [-> | [-> | ->]]; eexists; reflexivity. }
  destruct Hname as (name & ->).
  eexists (Ok tt), [_; _; _; _]. split; [reflexivity|by left].
Qed.

(** Whatever bytes arrive, [process_response] ends in one of two ways:
    it prints the four lines of the response and returns, or it prints
    exactly one error line and exits with status 1; either way closing
    the socket is the last thing it does, it does so once, and no other
    exception escapes. *)
Theorem process_response_outcomes sock response w :
  exists r lines,
    Client.process_response sock response w
    = (r, Close sock :: map Stdout lines ++ w)
    /\ ((r = Ok tt /\ length lines = 4%nat)
        \/ (r = Raise (SystemExit 1) /\ length lines = 1%nat)).
Proof. apply process_response_cases. Qed.

(** ** The command line and the exchange *)

Lemma request_type_cases argv w :
  exists r w',
    Client.validate_and_get_request_type argv w = (r, w')
    /\ ((exists prog host port,
           argv = [prog; py "date"; host; port] /\ r = Ok 0x0001 /\ w' = w)
        \/ (exists prog host port,
              argv = [prog; py "time"; host; port] /\ r = Ok 0x0002 /\ w' = w)
        \/ (r = Raise (SystemExit 1)
            /\ (exists line, w' = Stdout line :: w)
            /\ forall prog kind host port,
                 argv = [prog; kind; host; port] ->
                 kind <> py "date" /\ kind <> py "time")).
Proof.
  unfold Client.validate_and_get_request_type.
  destruct (Z.eqb_spec (len argv) 4) as [Hlen|Hlen]; cbn [negb].
  2:{ eexists _, _. split; [reflexivity|]. right. right.
      split; [done|]. split; [by eexists|].
      intros prog kind host port ->. by destruct Hlen. }
  destruct argv as [|prog [|kind [|host [|port [|]]]]]; try done.
  2:{ unfold len in Hlen. cbn [length] in Hlen. lia. }
  unfold bind, lift.
  change (py_getitem [prog; kind; host; port] 1) with (Ok (A:=pystr) kind).
  cbv beta iota. case_bool_decide as Hd.
  { subst kind. eexists _, _. split; [reflexivity|]. left.
    by exists prog, host, port. }
  case_bool_decide as Ht.
  { subst kind. eexists _, _. split; [reflexivity|]. right. left.
    by exists prog, host, port. }
  eexists _, _. split; [reflexivity|]. right. right.
  split; [done|]. split; [by eexists|].
  by intros ? ? ? ? [= <- <- <- <-].
Qed.

(** The request type is 1 for the argument "date" and 2 for "time", both
    in exactly this spelling, with four words on the command line;
    anything else prints one error line and exits with status 1. *)
Theorem request_type_from_command_line argv w :
  exists r w',
    Client.validate_and_get_request_type argv w = (r, w')
    /\ ((exists prog host port,
           argv = [prog; py "date"; host; port] /\ r = Ok 0x0001 /\ w' = w)
        \/ (exists prog host port,
              argv = [prog; py "time"; host; port] /\ r = Ok 0x0002 /\ w' = w)
        \/ (r = Raise (SystemExit 1)
            /\ (exists line, w' = Stdout line :: w)
            /\ forall prog kind host port,
                 argv = [prog; kind; host; port] ->
                 kind <> py "date" /\ kind <> py "time")).
Proof. apply request_type_cases. Qed.

Section Exchange.

Variable int_of_str : pystr -> option Z.

Variable os : Client.system.

Lemma port_cases prog kind host arg w :
  exists r w',
    Client.validate_and_get_port int_of_str os [prog; kind; host; arg] w
    = (r, w')
    /\ ((exists port infos,
           Client.getaddrinfo os host None = Ok infos
           /\ int_of_str arg = Some port /\ 1024 <= port <= 64000
           /\ r = Ok port /\ w' = w)
        \/ (r = Raise (SystemExit 1)
            /\ (exists line, w' = Stdout line :: w)
            /\ ((exists e, Client.getaddrinfo os host None = Raise e)
                \/ int_of_str arg = None
                \/ exists port, int_of_str arg = Some port
                                /\ ~ 1024 <= port <= 64000))).
Proof.
  unfold Client.validate_and_get_port. unfold bind at 1. unfold catch at 1.
  unfold bind at 1. unfold lift at 1.
  change (py_getitem [prog; kind; host; arg] 2) with (Ok (A:=pystr) host).
  cbv beta iota. unfold bind at 1. unfold lift at 1.
  destruct (Client.getaddrinfo os host None) as [infos|e] eqn:Hres.
  2:{ eexists _, _. split; [reflexivity|]. right. split; [done|].
      split; [by eexists|]. left. by exists e. }
  unfold ret at 1. cbv beta iota. unfold catch, bind, lift.
  change (py_getitem [prog; kind; host; arg] 3) with (Ok (A:=pystr) arg).
  cbv beta iota. unfold Client.py_int.
  destruct (int_of_str arg) as [port|] eqn:Hint.
  2:{ eexists _, _. split; [reflexivity|]. right. split; [done|].
      split; [by eexists|]. right. by left. }
  destruct (Z.leb_spec port 0).
  { eexists _, _. split; [reflexivity|]. right. split; [done|].
    split; [by eexists|]. right. right. exists port. split; [done|lia]. }
  destruct (Z.leb_spec 1024 port); [destruct (Z.leb_spec port 64000)|];
    cbn [andb negb].
  - eexists _, _. split; [reflexivity|]. left. by exists port, infos.
  - eexists _, _. split; [reflexivity|]. right. split; [done|].
    split; [by eexists|]. right. right. exists port. split; [done|lia].
  - eexists _, _. split; [reflexivity|]. right. split; [done|].
    split; [by eexists|]. right. right. exists port. split; [done|lia].
Qed.

(** The port is returned exactly when the host resolves and the fourth
    word parses as an integer in [1024, 64000]; a failure of any of the
    three prints one error line and exits with status 1, the exit inside
    the [try] not being taken for a ValueError. *)
Theorem port_from_command_line prog kind host arg w :
  exists r w',
    Client.validate_and_get_port int_of_str os [prog; kind; host; arg] w
    = (r, w')
    /\ ((exists port infos,
           Client.getaddrinfo os host None = Ok infos
           /\ int_of_str arg = Some port /\ 1024 <= port <= 64000
           /\ r = Ok port /\ w' = w)
        \/ (r = Raise (SystemExit 1)
            /\ (exists line, w' = Stdout line :: w)
            /\ ((exists e, Client.getaddrinfo os host None = Raise e)
                \/ int_of_str arg = None
                \/ exists port, int_of_str arg = Some port
                                /\ ~ 1024 <= port <= 64000))).
Proof. apply port_cases. Qed.

Lemma connect_cases prog kind host arg w :
  exists r w',
    Client.create_socket_and_connect int_of_str os [prog; kind; host; arg] w
    = (r, w')
    /\ ((exists sock port infos info,
           Client.new_socket os = Ok sock
           /\ int_of_str arg = Some port
           /\ Client.getaddrinfo os host (Some port) = Ok infos
           /\ infos !! 1%nat = Some info
           /\ Client.connect_ok os = true
           /\ r = Ok (sock, snd info) /\ w' = NewSocket sock :: w)
        \/ (r = Raise (SystemExit 1)
            /\ (w' = Stdout (py "ERROR: Socket creation failed") :: w
                \/ exists sock,
                     Client.new_socket os = Ok sock
                     /\ w' = Stdout (py "ERROR: Socket creation failed")
                             :: NewSocket sock :: w)
            /\ forall port infos,
                 int_of_str arg = Some port ->
                 Client.getaddrinfo os host (Some port) = Ok infos ->
                 (length infos < 2)%nat
                 \/ Client.connect_ok os = false
                 \/ exists e, Client.new_socket os = Raise e)).
Proof.
  unfold Client.create_socket_and_connect, catch. unfold bind at 1.
  unfold lift at 1.
  destruct (Client.new_socket os) as [sock|e] eqn:Hsock.
  2:{ eexists _, _. split; [reflexivity|]. right. split; [done|].
      split; [by left|]. intros. right. right. by exists e. }
  unfold bind at 1. unfold emit at 1. unfold bind at 1. unfold lift at 1.
  change (py_getitem [prog; kind; host; arg] 2) with (Ok (A:=pystr) host).
  cbv beta iota. unfold bind at 1. unfold lift at 1.
  change (py_getitem [prog; kind; host; arg] 3) with (Ok (A:=pystr) arg).
  cbv beta iota. unfold bind at 1. unfold lift at 1. unfold Client.py_int.
  destruct (int_of_str arg) as [port|] eqn:Hint.
  2:{ eexists _, _. split; [reflexivity|]. right. split; [done|].
      split; [right; by exists sock|]. done. }
  unfold bind at 1. unfold lift at 1.
  destruct (Client.getaddrinfo os host (Some port)) as [infos|e] eqn:Hres.
  2:{ eexists _, _. split; [reflexivity|]. right. split; [done|].
      split; [right; by exists sock|]. intros ? ? [= <-] ?. congruence. }
  unfold bind at 1. unfold lift at 1. unfold py_getitem.
  change (1 <? 0) with false. cbv beta iota. change (Z.to_nat 1) with 1%nat.
  destruct (infos !! 1%nat) as [info|] eqn:Hinfo.
  2:{ eexists _, _. split; [reflexivity|]. right. split; [done|].
      split; [right; by exists sock|]. intros ? infos' [= <-] Hres'.
      rewrite Hres in Hres'. injection Hres' as <-. left.
      apply lookup_ge_None_1 in Hinfo. lia. }
  unfold bind at 1.
  destruct (Client.connect_ok os) eqn:Hconn.
  - eexists _, _. split; [reflexivity|]. left.
    by exists sock, port, infos, info.
  - eexists _, _. split; [reflexivity|]. right. split; [done|].
    split; [right; by exists sock|]. intros. right. by left.
Qed.

(** The socket is connected to the address of the second entry that
    [getaddrinfo] returns. When the socket cannot be created, the port
    does not parse, the resolution fails or returns fewer than two
    entries, or [connect] fails, the one error printed is the
    socket-creation error and the exit status is 1; a socket that was
    created by then is not closed. *)
Theorem connect_to_second_entry prog kind host arg w :
  exists r w',
    Client.create_socket_and_connect int_of_str os [prog; kind; host; arg] w
    = (r, w')
    /\ ((exists sock port infos info,
           Client.new_socket os = Ok sock
           /\ int_of_str arg = Some port
           /\ Client.getaddrinfo os host (Some port) = Ok infos
           /\ infos !! 1%nat = Some info
           /\ Client.connect_ok os = true
           /\ r = Ok (sock, snd info) /\ w' = NewSocket sock :: w)
        \/ (r = Raise (SystemExit 1)
            /\ (w' = Stdout (py "ERROR: Socket creation failed") :: w
                \/ exists sock,
                     Client.new_socket os = Ok sock
                     /\ w' = Stdout (py "ERROR: Socket creation failed")
                             :: NewSocket sock :: w)
            /\ forall port infos,
                 int_of_str arg = Some port ->
                 Client.getaddrinfo os host (Some port) = Ok infos ->
                 (length infos < 2)%nat
                 \/ Client.connect_ok os = false
                 \/ exists e, Client.new_socket os = Raise e)).
Proof. apply connect_cases. Qed.

End Exchange.

Section ExchangeRuns.

Variable int_of_str : pystr -> option Z.

Variable os : Client.system.

Lemma asks_for_request_type prog kind host arg request w :
  asks_for kind request ->
  exists request_type,
    Client.validate_and_get_request_type [prog; kind; host; arg] w
    = (Ok request_type, w)
    /\ Client.build_request request_type = Ok request.
Proof.
  intros [[-> ->]|[-> ->]].
  - by exists 0x0001.
  - by exists 0x0002.
Qed.

(** With the set-up done, one request is sent and the run is what the
    receive decides: the bytes that arrive are processed; a timeout or
    another failure of the receive prints its error, closes the socket
    and exits with status 1. *)
Theorem requester_exchange prog kind host arg request port infos infos2
    (info : Client.addrinfo) sock w :
  asks_for kind request ->
  Client.getaddrinfo os host None = Ok infos ->
  int_of_str arg = Some port -> 1024 <= port <= 64000 ->
  Client.new_socket os = Ok sock ->
  Client.getaddrinfo os host (Some port) = Ok infos2 ->
  infos2 !! 1%nat = Some info ->
  Client.connect_ok os = true ->
  Client.sendto_ok os = true ->
  let w1 := Stdout (request_sent_line kind (snd info) port)
            :: SendTo sock request (snd info) :: NewSocket sock :: w in
  Client.main int_of_str os [prog; kind; host; arg] w =
    match Client.recvfrom os with
    | Ok r => Client.process_response sock (fst r) w1
    | Raise SocketTimeout =>
      (Raise (SystemExit 1),
       Close sock :: Stdout (py "ERROR: Receiving timed out") :: w1)
    | Raise _ =>
      (Raise (SystemExit 1),
       Close sock :: Stdout (py "ERROR: Receiving failed") :: w1)
    end.
Proof.
  intros Hasks Hres Hint Hrange Hsock Hres2 Hinfo Hconn Hsend w1.
  destruct (asks_for_request_type prog kind host arg request w Hasks)
    as (request_type & Hkind & Hbuild).
  unfold Client.main. unfold bind at 1. rewrite Hkind.
  unfold bind at 1.
  assert (Hport : Client.validate_and_get_port int_of_str os
                    [prog; kind; host; arg] w = (Ok port, w)).
  { unfold Client.validate_and_get_port. unfold bind at 1. unfold catch at 1.
    unfold bind at 1. unfold lift at 1.
    change (py_getitem [prog; kind; host; arg] 2) with (Ok (A:=pystr) host).
    cbv beta iota. unfold bind at 1. unfold lift at 1. rewrite Hres.
    unfold ret at 1. cbv beta iota. unfold catch, bind, lift.
    change (py_getitem [prog; kind; host; arg] 3) with (Ok (A:=pystr) arg).
    cbv beta iota. unfold Client.py_int. rewrite Hint.
    destruct (Z.leb_spec port 0); [lia|].
    destruct (Z.leb_spec 1024 port); [|lia].
    destruct (Z.leb_spec port 64000); [|lia]. reflexivity. }
  rewrite Hport. unfold bind at 1.
  assert (Hconnect : Client.create_socket_and_connect int_of_str os
                       [prog; kind; host; arg] w
                     = (Ok (sock, snd info), NewSocket sock :: w)).
  { unfold Client.create_socket_and_connect, catch. unfold bind at 1.
    unfold lift at 1. rewrite Hsock.
    unfold bind at 1. unfold emit at 1. unfold bind at 1. unfold lift at 1.
    change (py_getitem [prog; kind; host; arg] 2) with (Ok (A:=pystr) host).
    cbv beta iota. unfold bind at 1. unfold lift at 1.
    change (py_getitem [prog; kind; host; arg] 3) with (Ok (A:=pystr) arg).
    cbv beta iota. unfold bind at 1. unfold lift at 1. unfold Client.py_int.
    rewrite Hint. unfold bind at 1. unfold lift at 1. rewrite Hres2.
    unfold bind at 1. unfold lift at 1. unfold py_getitem.
    change (1 <? 0) with false. cbv beta iota zeta.
    change (Z.to_nat 1) with 1%nat.
    match goal with
    | |- context [match ?x with Some _ => _ | None => _ end] =>
      replace x with (Some info) by (symmetry; exact Hinfo)
    end. unfold bind at 1. rewrite Hconn. reflexivity. }
  rewrite Hconnect. cbn [fst snd]. unfold bind at 1. unfold lift at 1.
  change (py_getitem [prog; kind; host; arg] 1) with (Ok (A:=pystr) kind).
  cbv beta iota. unfold bind at 1.
  assert (Hsent : Client.send_request (Client.sendto_ok os) kind sock
                    (snd info) request_type port (NewSocket sock :: w)
                  = (Ok tt, w1)).
  { unfold Client.send_request. unfold bind at 1. unfold lift at 1.
    rewrite Hbuild, Hsend. reflexivity. }
  rewrite Hsent. unfold bind at 1. unfold catch, lift.
  destruct (Client.recvfrom os) as [r|e]; [reflexivity|].
  destruct e; reflexivity.
Qed.

End ExchangeRuns.

Lemma requester_exchange_witness :
  Client.main decimal_int (sample_system (Raise SocketTimeout)) client_argv []
  = (Raise (SystemExit 1),
     [Close 7%nat; Stdout (py "ERROR: Receiving timed out");
      Stdout (py "Time request sent to 127.0.0.1:30001");
      SendTo 7%nat time_request (py "127.0.0.1", 30001); NewSocket 7%nat]).
Proof.
  unfold client_argv.
  rewrite (requester_exchange decimal_int (sample_system (Raise SocketTimeout))
             (py "client.py") (py "time") (py "localhost") (py "30001")
             time_request 30001
             [(2, 1, 6, [], (py "127.0.0.1", 0));
              (2, 2, 17, [], (py "127.0.0.1", 0));
              (2, 3, 0, [], (py "127.0.0.1", 0))]
             [(2, 1, 6, [], (py "127.0.0.1", 30001));
              (2, 2, 17, [], (py "127.0.0.1", 30001));
              (2, 3, 0, [], (py "127.0.0.1", 30001))]
             (2, 2, 17, [], (py "127.0.0.1", 30001)) 7%nat []).
  - vm_compute. reflexivity.
  - right. split; reflexivity.
  - reflexivity.
  - vm_compute. reflexivity.
  - lia.
  - reflexivity.
  - reflexivity.
  - reflexivity.
  - reflexivity.
  - reflexivity.
Defined.

Section OneRequest.

Variable int_of_str : pystr -> option Z.

Variable os : Client.system.

Lemma main_after_request_type prog kind host arg request w :
  asks_for kind request ->
  exists r w',
    Client.main int_of_str os [prog; kind; host; arg] w = (r, w')
    /\ (r = Ok tt \/ r = Raise (SystemExit 1))
    /\ (sent w' = sent w
        \/ exists sock addr, sent w' = (sock, request, addr) :: sent w).
Proof.
  intros Hasks.
  destruct (asks_for_request_type prog kind host arg request w Hasks)
    as (request_type & Hkind & Hbuild).
  unfold Client.main. unfold bind at 1. rewrite Hkind. unfold bind at 1.
  destruct (port_cases int_of_str os prog kind host arg w)
    as (r2 & w2 & -> & [(port & infos & _ & _ & _ & -> & ->)
                        |(-> & (line & ->) & _)]).
  2:{ eexists _, _. split; [reflexivity|]. split; [by right|by left]. }
  unfold bind at 1.
  destruct (connect_cases int_of_str os prog kind host arg w)
    as (r3 & w3 & -> & [(sock & port' & infos2 & info & _ & _ & _ & _ & _
                         & -> & ->)
                        |(-> & Hw3 & _)]).
  2:{ eexists _, _. split; [reflexivity|]. split; [by right|]. left.
      destruct Hw3 as [-> | (sock & _ & ->)]; reflexivity. }
  cbn [fst snd]. unfold bind at 1. unfold lift at 1.
  change (py_getitem [prog; kind; host; arg] 1) with (Ok (A:=pystr) kind).
  cbv beta iota. unfold bind at 1.
  unfold Client.send_request. unfold bind at 1. unfold lift at 1.
  rewrite Hbuild. unfold catch at 1. unfold bind at 1. unfold sendto.
  destruct (Client.sendto_ok os).
  2:{ eexists _, _. split; [reflexivity|]. split; [by right|by left]. }
  unfold emit at 1. unfold print at 1. unfold emit at 1.
  unfold bind at 1. unfold catch, lift.
  destruct (Client.recvfrom os) as [r|e].
  - destruct (process_response_cases sock (fst r)
                (Stdout (Client.capitalize kind ++ py " request sent to "
                         ++ (snd info).1 ++ py ":" ++ str_of_int port)
                 :: SendTo sock request (snd info) :: NewSocket sock :: w))
      as (r4 & lines & -> & Hr4).
    eexists _, _. split; [reflexivity|].
    split; [destruct Hr4 as [[-> _]|[-> _]]; by (left + right)|].
    right. exists sock, (snd info).
    change (sent (Close sock :: ?l)) with (sent l). by rewrite sent_lines.
  - destruct e; (eexists _, _; split; [reflexivity|]; split; [by right|];
      right; by exists sock, (snd info)).
Qed.

(** A run of the requester, whatever the command line and whatever the
    system does, ends by returning or by exit status 1 and by nothing
    else, and it sends no datagram or exactly one: the 6-byte date request
    when the second word is "date", the time request when it is "time". *)
Theorem requester_sends_one_request_at_most argv w :
  exists r w',
    Client.main int_of_str os argv w = (r, w')
    /\ (r = Ok tt \/ r = Raise (SystemExit 1))
    /\ (sent w' = sent w
        \/ exists sock addr kind request,
             argv !! 1%nat = Some kind /\ asks_for kind request
             /\ sent w' = (sock, request, addr) :: sent w).
Proof.
  destruct (request_type_cases argv w)
    as (r1 & w1 & Hrun1 & [(prog & host & arg & -> & _ & _)
                           |[(prog & host & arg & -> & _ & _)
                            |(-> & (line & ->) & _)]]).
  - destruct (main_after_request_type prog (py "date") host arg date_request w)
      as (r & w' & Hrun & Hr & Hsent); [by left|].
    exists r, w'. split; [done|]. split; [done|].
    destruct Hsent as [Hsent|(sock & addr & Hsent)]; [by left|right].
    exists sock, addr, (py "date"), date_request. split; [done|].
    split; [by left|done].
  - destruct (main_after_request_type prog (py "time") host arg time_request w)
      as (r & w' & Hrun & Hr & Hsent); [by right|].
    exists r, w'. split; [done|]. split; [done|].
    destruct Hsent as [Hsent|(sock & addr & Hsent)]; [by left|right].
    exists sock, addr, (py "time"), time_request. split; [done|].
    split; [by right|done].
  - unfold Client.main. unfold bind at 1. rewrite Hrun1.
    eexists _, _. split; [reflexivity|]. split; [by right|by left].
Qed.

End OneRequest.

(** * Runs on concrete inputs *)

Example py_maori : py "Māori" = [77; 257; 111; 114; 105].
Proof. reflexivity. Qed.

Example utf8_maori : str_encode (py "Māori") = Ok [77; 196; 129; 111; 114; 105].
Proof. reflexivity. Qed.

Example utf8_lone_surrogate : str_encode [0xD800] = Raise UnicodeEncodeError.
Proof. reflexivity. Qed.

Example utf8_overlong : utf8_decode [0xC0; 0x80] = None.
Proof. reflexivity. Qed.

Example utf8_surrogate : utf8_decode [0xED; 0xA0; 0x80] = None.
Proof. reflexivity. Qed.

Example utf8_truncated : utf8_decode [0xE2; 0x82] = None.
Proof. reflexivity. Qed.

Example utf8_euro : utf8_decode [0xE2; 0x82; 0xAC] = Some [0x20AC].
Proof. reflexivity. Qed.

Example utf8_top : utf8_decode (utf8_encode_cp 0x10FFFF) = Some [0x10FFFF].
Proof. reflexivity. Qed.

Example utf8_beyond : utf8_decode [0xF4; 0x90; 0x80; 0x80] = None.
Proof. reflexivity. Qed.

Example slice_negative : py_slice [1; 2; 3; 4; 5] (-3) 4 = [3; 4].
Proof. reflexivity. Qed.

Example slice_clipped : py_slice [1; 2; 3] 1 10 = [2; 3].
Proof. reflexivity. Qed.

Example getitem_last : py_getitem [1; 2; 3] (-1) = Ok 3.
Proof. reflexivity. Qed.

Example str_2024 : str_of_int 2024 = py "2024".
Proof. reflexivity. Qed.

Example str_zero : str_of_int 0 = py "0".
Proof. reflexivity. Qed.

Example str_neg : str_of_int (-10) = py "-10".
Proof. reflexivity. Qed.

Example fmt02_7 : fmt02 7 = py "07".
Proof. reflexivity. Qed.

Example fmt02_23 : fmt02 23 = py "23".
Proof. reflexivity. Qed.

Example german_date :
  Server.format_date sample_time German = Ok (py "Heute ist der 17. Mai 2024").
Proof. reflexivity. Qed.

Example maori_time :
  Server.format_time sample_time Maori = py "Ko te wā o tēnei wā 14:07".
Proof. reflexivity. Qed.

(** The scenario of the three ports: a date request on the first socket. *)
Example english_date_reply :
  Server.service [3; 4; 5]%nat
    (Server.mk_arrival 3%nat (Ok (date_request, sample_addr)) sample_env) []
  = (Ok Server.Next,
     [Stdout (py "Response sent"); SendTo 3%nat sample_response sample_addr;
      Stdout (py "English received date request from 127.0.0.1")]).
Proof. vm_compute. reflexivity. Qed.

Example english_date_printed :
  Client.process_response 9%nat sample_response []
  = (Ok tt,
     [Close 9%nat; Stdout (py "Time: 14:07"); Stdout (py "Date: 17/5/2024");
      Stdout (py "Text: Today's date is May 17, 2024");
      Stdout (py "English response received:")]).
Proof. vm_compute. reflexivity. Qed.

(** A 5-byte datagram, then a valid one on the same socket: the first is
    dropped, the second is served. *)
Example served_after_malformed :
  Server.serve [3; 4; 5]%nat
    [[Server.mk_arrival 5%nat (Ok ([0x36; 0xFB; 0x00; 0x01; 0x00], sample_addr))
        sample_env];
     [Server.mk_arrival 5%nat (Ok (time_request, sample_addr)) sample_env]] []
  = (Ok tt,
     [Stdout (py "Response sent");
      SendTo 5%nat
        ([0x36; 0xFB; 0x00; 0x02; 0x00; 0x03; 0x07; 0xE8; 5; 17; 14; 7; 21]
         ++ utf8_bytes (py "Die Uhrzeit ist 14:07")) sample_addr;
      Stdout (py "German received time request from 127.0.0.1");
      Stdout (py "Waiting for requests...");
      Stdout (py "ERROR: Packet length incorrect for a DT_Request, dropping packet");
      Stdout (py "Waiting for requests...")]).
Proof. vm_compute. reflexivity. Qed.

(** A receive that times out is logged and the loop goes on. *)
Example receive_timeout :
  Server.service [3; 4; 5]%nat
    (Server.mk_arrival 4%nat (Raise SocketTimeout) sample_env) []
  = (Ok Server.Next,
     [Stdout (py "ERROR: Receiving timed out, dropping packet")]).
Proof. reflexivity. Qed.

(** In the model a year can be as long as one likes, and then the text is
    too long; the clock's years never are ([request_text_fits]). *)
Example text_too_long :
  Server.handle_request
    (Server.mk_env (mk_datetime (10 ^ 260) 5 17 14 7) true)
    date_request sample_addr 3%nat 0x0001 []
  = (Ok tt,
     [Stdout (py "ERROR: Text too long, dropping packet");
      Stdout (py "English received date request from 127.0.0.1")]).
Proof. vm_compute. reflexivity. Qed.

Example ports_good :
  Server.get_valid_portnum decimal_int
    [py "server.py"; py "30001"; py "30002"; py "30003"] []
  = (Ok (Some [30001; 30002; 30003]), []).
Proof. vm_compute. reflexivity. Qed.

Example ports_duplicate :
  Server.main decimal_int [py "server.py"; py "30001"; py "30001"; py "30003"]
    (fun _ => Server.Bound 3%nat) [] []
  = (Raise (SystemExit 1), [Stdout (py "ERROR: Duplicate ports given")]).
Proof. vm_compute. reflexivity. Qed.

Example ports_low :
  Server.main decimal_int [py "server.py"; py "80"; py "30002"; py "30003"]
    (fun _ => Server.Bound 3%nat) [] []
  = (Raise (SystemExit 1),
     [Stdout (py "ERROR: Given port '80' is not in the range [1024, 64000]")]).
Proof. vm_compute. reflexivity. Qed.

Example ports_bound :
  socket_events
    (snd (Server.main decimal_int
            [py "server.py"; py "30001"; py "30002"; py "30003"]
            (fun i => Server.Bound (Z.to_nat (i + 3))) [] []))
  = [Bind 5%nat 30003; NewSocket 5%nat; Bind 4%nat 30002; NewSocket 4%nat;
     Bind 3%nat 30001; NewSocket 3%nat].
Proof. vm_compute. reflexivity. Qed.

Example request_sent :
  Client.send_request true (py "time") 7%nat sample_addr 0x0002 30001 []
  = (Ok tt,
     [Stdout (py "Time request sent to 127.0.0.1:30001");
      SendTo 7%nat time_request sample_addr]).
Proof. vm_compute. reflexivity. Qed.

Example short_response :
  Client.process_response 9%nat [0x36; 0xFB; 0x00; 0x02] []
  = (Raise (SystemExit 1), [Close 9%nat; Stdout Client.too_small]).
Proof. vm_compute. reflexivity. Qed.

(** The whole exchange on the requester's side: the reply arrives. *)
Example exchange_printed :
  Client.main decimal_int
    (sample_system (Ok (sample_response, (py "127.0.0.1", 30001))))
    [py "client.py"; py "date"; py "localhost"; py "30001"] []
  = (Ok tt,
     [Close 7%nat; Stdout (py "Time: 14:07"); Stdout (py "Date: 17/5/2024");
      Stdout (py "Text: Today's date is May 17, 2024");
      Stdout (py "English response received:");
      Stdout (py "Date request sent to 127.0.0.1:30001");
      SendTo 7%nat date_request (py "127.0.0.1", 30001); NewSocket 7%nat]).
Proof. vm_compute. reflexivity. Qed.

Example exchange_bad_kind :
  Client.main decimal_int (sample_system (Raise SocketTimeout))
    [py "client.py"; py "Date"; py "localhost"; py "30001"] []
  = (Raise (SystemExit 1),
     [Stdout (py "ERROR: Request type 'Date' is not valid")]).
Proof. vm_compute. reflexivity. Qed.

Example exchange_low_port :
  Client.main decimal_int (sample_system (Raise SocketTimeout))
    [py "client.py"; py "date"; py "localhost"; py "80"] []
  = (Raise (SystemExit 1),
     [Stdout (py "ERROR: Given port '80' is not in the range [1024, 64000]")]).
Proof. vm_compute. reflexivity. Qed.

(** One entry from the resolver is not enough for the requester. *)
Example exchange_single_entry :
  Client.main decimal_int
    (Client.mk_system
       (fun _ port => Ok [(2, 2, 17, [], (py "127.0.0.1", default 0 port))])
       (Ok 7%nat) true true (Raise SocketTimeout))
    client_argv []
  = (Raise (SystemExit 1),
     [Stdout (py "ERROR: Socket creation failed"); NewSocket 7%nat]).
Proof. vm_compute. reflexivity. Qed.

Example ports_not_positive :
  Server.get_valid_portnum decimal_int
    [py "server.py"; py "0"; py "30002"; py "70000"] []
  = (Ok None, [Stdout (py "ERROR: Given port '0' is not a positive integer")]).
Proof. vm_compute. reflexivity. Qed.
